(** * AI-Resume-Builder: the structuring and export pipeline of [app.py]

    A shallow embedding of the résumé structurer ([fallback_structure]),
    the AI structurer ([call_openai_for_resume]), the request handlers
    ([index], [download_pdf], [download_docx]) and the ReportLab fallback
    ([reportlab_pdf_bytes]), together with the properties the specification
    states about them.

    Python strings are sequences of Unicode code points; they are modelled
    as [list N], so that [len], slicing and [strip] count code points (the
    em dash used as a field separator is one character, not three bytes). *)

From Stdlib Require Import ZArith NArith String Ascii List Lia.
From stdpp Require Import base option list gmap strings.

Set Default Proof Using "Type".

(** ** Python strings *)

Abbreviation str := (list N).

Module PyStr.

(** Source literals are written as Rocq strings (UTF-8 bytes) and decoded to
    code points. *)
Fixpoint utf8_decode (bs : list N) : str :=
  match bs with
  | [] => []
  | b0 :: r0 =>
    if (b0 <? 0x80)%N then b0 :: utf8_decode r0
    else if (b0 <? 0xE0)%N then
      match r0 with
      | b1 :: r1 => ((b0 - 0xC0) * 0x40 + (b1 - 0x80))%N :: utf8_decode r1
      | _ => []
      end
    else if (b0 <? 0xF0)%N then
      match r0 with
      | b1 :: b2 :: r2 =>
        ((b0 - 0xE0) * 0x1000 + (b1 - 0x80) * 0x40 + (b2 - 0x80))%N
          :: utf8_decode r2
      | _ => []
      end
    else
      match r0 with
      | b1 :: b2 :: b3 :: r3 =>
        ((b0 - 0xF0) * 0x40000 + (b1 - 0x80) * 0x1000
         + (b2 - 0x80) * 0x40 + (b3 - 0x80))%N :: utf8_decode r3
      | _ => []
      end
  end.

Definition u (s : string) : str :=
  utf8_decode (map N_of_ascii (list_ascii_of_string s)).
Arguments u : simpl never.

(** [str.isspace] for one character: the code points CPython's
    [_PyUnicode_IsWhitespace] accepts. *)
Definition isspace (c : N) : bool :=
  ((0x09 <=? c) && (c <=? 0x0D) || (0x1C <=? c) && (c <=? 0x20)
   || (c =? 0x85) || (c =? 0xA0) || (c =? 0x1680)
   || (0x2000 <=? c) && (c <=? 0x200A)
   || (c =? 0x2028) || (c =? 0x2029) || (c =? 0x202F) || (c =? 0x205F)
   || (c =? 0x3000))%N.

Fixpoint lstrip (s : str) : str :=
  match s with
  | c :: s' => if isspace c then lstrip s' else s
  | [] => []
  end.

Definition rstrip (s : str) : str := rev (lstrip (rev s)).

(** [s.strip()] *)
Definition strip (s : str) : str := rstrip (lstrip s).

Fixpoint startswith (p s : str) : bool :=
  match p, s with
  | [], _ => true
  | a :: p', b :: s' => (a =? b)%N && startswith p' s'
  | _ :: _, [] => false
  end.

(** The scan behind [s.split(sep)] for a non-empty [sep]: left to right,
    occurrences do not overlap. [skip] counts the characters of a separator
    just found that are still to be passed over; [cur] is the piece being
    collected. *)
Fixpoint split_from (sep : str) (skip : nat) (cur : str) (s : str) : list str :=
  match s with
  | [] => [cur]
  | c :: s' =>
    match skip with
    | S k => split_from sep k cur s'
    | O =>
      if startswith sep s
      then cur :: split_from sep (length sep - 1) [] s'
      else split_from sep 0 (cur ++ [c]) s'
    end
  end.

Definition pieces (s sep : str) : list str := split_from sep 0 [] s.

(** [sep.join(l)] *)
Fixpoint join (sep : str) (l : list str) : str :=
  match l with
  | [] => []
  | [x] => x
  | x :: l' => x ++ sep ++ join sep l'
  end.

End PyStr.
Export PyStr.

(** ** Exceptions and results *)

Inductive exn : Type :=
| IndexError
| KeyError
| ValueError
| TypeError
| AttributeError
| JSONDecodeError
| TemplateNotFound
| RuntimeError
| UnicodeEncodeError
| LibraryError (what : str).

Inductive result (A : Type) : Type :=
| Ok (a : A)
| Raise (e : exn).
Arguments Ok {A} a.
Arguments Raise {A} e.

#[global] Instance result_ret : MRet result := λ A a, Ok a.
#[global] Instance result_bind : MBind result := λ A B f m,
  match m with
  | Ok a => f a
  | Raise e => Raise e
  end.
#[global] Instance result_fmap : FMap result := λ A B f m,
  match m with
  | Ok a => Ok (f a)
  | Raise e => Raise e
  end.

(** [s.split(sep)] raises [ValueError] on an empty separator. *)
Definition split (s sep : str) : result (list str) :=
  match sep with
  | [] => Raise ValueError
  | _ :: _ => Ok (pieces s sep)
  end.

(** [l[i]] for a non-negative index. *)
Definition getitem {A} (l : list A) (i : nat) : result A :=
  match l !! i with
  | Some x => Ok x
  | None => Raise IndexError
  end.

(** [for x in l: acc = body(acc, x)] *)
Fixpoint for_each {A B} (body : B → A → result B) (acc : B) (l : list A)
  : result B :=
  match l with
  | [] => Ok acc
  | x :: l' => acc' ← body acc x; for_each body acc' l'
  end.

(** ** Data model *)

Record ExperienceEntry := {
  company : str;
  role : str;
  dates : str;
  bullets : list str
}.

Record ResumeStructure := {
  summary : str;
  experiences : list ExperienceEntry;
  skills_line : str
}.

(** [FormData]: a flat mapping from string keys to string values;
    [d.get(k, dflt)]. *)
Definition dict_get {V} (d : gmap str V) (k : str) (dflt : V) : V :=
  default dflt (d !! k).

(** ** The Local Structurer *)

(** The body of the [for block in raw.split("||")] loop; [ex_list] is the list
    the loop appends to. *)
Definition structure_block (ex_list : list ExperienceEntry) (block : str)
  : result (list ExperienceEntry) :=
  let block := strip block in
  if decide (block = []) then Ok ex_list else
  ps ← split block (u "—");
  let parts := strip <$> ps in
  company ← (if decide (0 < length parts) then getitem parts 0 else Ok (u ""));
  role ← (if decide (1 < length parts) then getitem parts 1 else Ok (u ""));
  dates ← (if decide (2 < length parts) then getitem parts 2 else Ok (u ""));
  desc ← (if decide (3 < length parts) then getitem parts 3 else Ok (u ""));
  let bullets : list str := [] in
  let bullets :=
    if decide (desc ≠ [])
    then bullets ++ [if decide (length desc ≤ 120) then desc
                     else take 117 desc ++ u "..."]
    else bullets ++ [u "Served as " ++ role ++ u " at " ++ company] in
  let bullets :=
    bullets ++ [u "Delivered key results"; u "Collaborated across teams"] in
  Ok (ex_list ++ [{| company := company; role := role; dates := dates;
                     bullets := bullets |}]).

Definition fallback_structure (data : gmap str str) : result ResumeStructure :=
  toks ← split (dict_get data (u "skills") (u "")) (u ",");
  let summary :=
    dict_get data (u "title") (u "") ++ u " with experience in "
    ++ join (u ", ") (take 3 (strip <$> toks)) ++ u "." in
  let raw := dict_get data (u "experience_raw") (u "") in
  blocks ← split raw (u "||");
  ex_list ← for_each structure_block [] blocks;
  toks' ← split (dict_get data (u "skills") (u "")) (u ",");
  let skills_line :=
    join (u ", ") (strip <$> filter (λ s, strip s ≠ []) toks') in
  Ok {| summary := summary; experiences := ex_list;
        skills_line := skills_line |}.

(** ** The Local Structurer, as the specification words it *)

Module Spec.

(** The blocks of [experience_raw]: split on the separator, trimmed, the
    empty ones dropped. *)
Definition kept_blocks (raw : str) : list str :=
  filter (λ b, b ≠ []) (strip <$> pieces raw (u "||")).

(** The [i]-th em-dash-separated part of a block, trimmed; a missing part is
    the empty string. *)
Definition part (i : nat) (block : str) : str :=
  default (u "") ((strip <$> pieces block (u "—")) !! i).

Definition description (block : str) : str := part 3 block.

Definition first_bullet (block : str) : str :=
  if decide (description block ≠ [])
  then if decide (length (description block) ≤ 120) then description block
       else take 117 (description block) ++ u "..."
  else u "Served as " ++ part 1 block ++ u " at " ++ part 0 block.

Definition entry_of (block : str) : ExperienceEntry :=
  {| company := part 0 block; role := part 1 block; dates := part 2 block;
     bullets := [first_bullet block; u "Delivered key results";
                 u "Collaborated across teams"] |}.

(** The skill tokens: split on the comma, trimmed. *)
Definition skill_tokens (skills : str) : list str :=
  strip <$> pieces skills (u ",").

Definition structure (data : gmap str str) : ResumeStructure :=
  {| summary :=
       dict_get data (u "title") (u "") ++ u " with experience in "
       ++ join (u ", ") (take 3 (skill_tokens (dict_get data (u "skills") (u ""))))
       ++ u ".";
     experiences :=
       map entry_of (kept_blocks (dict_get data (u "experience_raw") (u "")));
     skills_line :=
       join (u ", ")
         (filter (λ t, t ≠ []) (skill_tokens (dict_get data (u "skills") (u "")))) |}.

End Spec.

(** ** Python values

    What [json.loads] returns and what the handlers pass around. A float is
    kept as its IEEE-754 binary64 bit pattern; nothing below computes with
    it. A dict is a finite map: its insertion order is not tracked. *)

#[local] Set Warnings "-register-all".

Inductive pyval : Type :=
| PNone
| PBool (b : bool)
| PInt (z : Z)
| PFloat (bits : Z)
| PStr (s : str)
| PList (l : list pyval)
| PDict (d : gmap str pyval).

(** [bool(v)] *)
Definition truthy (v : pyval) : bool :=
  match v with
  | PNone => false
  | PBool b => b
  | PInt z => negb (z =? 0)%Z
  | PFloat bits => negb (Z.land bits (2 ^ 63 - 1) =? 0)%Z
  | PStr s => negb (bool_decide (s = []))
  | PList l => negb (bool_decide (length l = 0))
  | PDict d => negb (bool_decide (size d = 0))
  end.

(** [v.get(k, dflt)]: only a dict has the method. *)
Definition py_get (v : pyval) (k : str) (dflt : pyval) : result pyval :=
  match v with
  | PDict d => Ok (dict_get d k dflt)
  | _ => Raise AttributeError
  end.

(** [v[k]] for a string key. *)
Definition getitem_key (v : pyval) (k : str) : result pyval :=
  match v with
  | PDict d => match d !! k with Some x => Ok x | None => Raise KeyError end
  | _ => Raise TypeError
  end.

(** [v[i]] for a non-negative integer index. *)
Definition getitem_idx (v : pyval) (i : nat) : result pyval :=
  match v with
  | PList l => getitem l i
  | PStr s => (λ c, PStr [c]) <$> getitem s i
  | PDict _ => Raise KeyError
  | _ => Raise TypeError
  end.

(** [v[:n]] *)
Definition slice_to (n : nat) (v : pyval) : result pyval :=
  match v with
  | PStr s => Ok (PStr (take n s))
  | PList l => Ok (PList (take n l))
  | _ => Raise TypeError
  end.

Definition opt_value (o : option str) : pyval :=
  match o with
  | Some s => PStr s
  | None => PNone
  end.

(** [v or w] *)
Definition py_or (v w : pyval) : pyval := if truthy v then v else w.

(** The dict literals [fallback_structure] builds, and the form dict. *)
Definition entry_value (e : ExperienceEntry) : pyval :=
  PDict (list_to_map
    [(u "company", PStr (company e)); (u "role", PStr (role e));
     (u "dates", PStr (dates e)); (u "bullets", PList (PStr <$> bullets e))]).

Definition structure_value (r : ResumeStructure) : pyval :=
  PDict (list_to_map
    [(u "summary", PStr (summary r));
     (u "experiences", PList (entry_value <$> experiences r));
     (u "skills_line", PStr (skills_line r))]).

Definition form_value (form : gmap str str) : pyval := PDict (PStr <$> form).

(** ** Bytes *)

Abbreviation bytes := (list Byte.byte).

Definition byte_of (n : N) : Byte.byte := default Byte.x00 (Byte.of_N n).

(** UTF-8 for one code point; a surrogate cannot be encoded. *)
Definition encode_char (c : N) : result bytes :=
  if (c <? 0x80)%N then Ok [byte_of c]
  else if (c <? 0x800)%N then
    Ok [byte_of (0xC0 + c / 0x40); byte_of (0x80 + c mod 0x40)]
  else if ((0xD800 <=? c) && (c <=? 0xDFFF))%N then Raise UnicodeEncodeError
  else if (c <? 0x10000)%N then
    Ok [byte_of (0xE0 + c / 0x1000); byte_of (0x80 + (c / 0x40) mod 0x40);
        byte_of (0x80 + c mod 0x40)]
  else
    Ok [byte_of (0xF0 + c / 0x40000); byte_of (0x80 + (c / 0x1000) mod 0x40);
        byte_of (0x80 + (c / 0x40) mod 0x40); byte_of (0x80 + c mod 0x40)].

(** [s.encode()] *)
Fixpoint encode (s : str) : result bytes :=
  match s with
  | [] => Ok []
  | c :: s' => b ← encode_char c; bs ← encode s'; Ok (b ++ bs)
  end.

(** ** The world outside [app.py] *)

Inductive canvas_op : Type :=
| SetFont (name : str) (size : Z)
| DrawString (x y : Z) (text : pyval)
| ShowPage
| Save.

Inductive docx_op : Type :=
| AddHeading (text : pyval) (level : Z)
| AddParagraph (text : pyval) (style : option str)
| AddPicture (path : str).

(** Calls that leave the process or print, in the order they happen. *)
Inductive event : Type :=
| EvChat (api_key model prompt : str) (max_tokens : Z)
| EvPrint (msg : str) (e : exn)
| EvRender (template : str) (context : list (str * pyval))
| EvSave (path : str).

(** The import-time capability flags and the libraries behind the calls. A
    library call answers with a value or raises. *)
Record Env := {
  OPENAI_AVAILABLE : bool;
  WEASY_AVAILABLE : bool;
  DOCX_AVAILABLE : bool;
  (** [json.loads] on a string, [json.dumps(_, indent=2)] *)
  json_loads_str : str → result pyval;
  json_dumps : pyval → result str;
  (** [format] of a value that is not a string, [None] or a bool *)
  py_repr : pyval → str;
  (** [openai.ChatCompletion.create] *)
  chat_completion_create : str → str → result pyval;
  (** Flask's [render_template], [url_for('static', filename=_)] *)
  render_template_lib : str → list (str * pyval) → result str;
  url_for_static : str → str;
  (** werkzeug's [secure_filename], [uuid.uuid4().hex], [FileStorage.save] *)
  secure_filename : str → str;
  uuid4_hex : str;
  save_upload : str → result unit;
  (** WeasyPrint's [HTML(string=_).write_pdf()] *)
  write_pdf : str → result bytes;
  (** ReportLab: one canvas call after the calls already made; the bytes
      the saved canvas leaves in the buffer *)
  canvas_do : list canvas_op → canvas_op → result unit;
  canvas_bytes : list canvas_op → bytes;
  (** python-docx: one document call; the bytes [doc.save] writes *)
  docx_do : list docx_op → docx_op → result unit;
  docx_bytes : list docx_op → bytes;
  path_exists : str → bool;
  (** Flask's [send_file]: deriving the file names of the
      [Content-Disposition] header from the download name, where a name
      that cannot be encoded is refused *)
  download_names : str → result unit;
  (** the keys of a dict in insertion order, which the parser that built the
      dict fixed and the finite map does not record *)
  dict_keys : gmap str pyval → list str
}.

(** [json.loads(v)]: anything but a string is a [TypeError]. *)
Definition json_loads (env : Env) (v : pyval) : result pyval :=
  match v with
  | PStr s => json_loads_str env s
  | _ => Raise TypeError
  end.

(** A value inside an f-string. *)
Definition format (env : Env) (v : pyval) : str :=
  match v with
  | PStr s => s
  | PNone => u "None"
  | PBool true => u "True"
  | PBool false => u "False"
  | _ => py_repr env v
  end.

(** The items a [for] loop over [v] visits. A dict gives its keys in the
    order in which they were inserted. *)
Definition py_iter (env : Env) (v : pyval) : result (list pyval) :=
  match v with
  | PList l => Ok l
  | PStr s => Ok ((λ c, PStr [c]) <$> s)
  | PDict d => Ok (PStr <$> dict_keys env d)
  | _ => Raise TypeError
  end.

(** ** Effects: a trace of events, and exceptions *)

Definition M (A : Type) : Type := list event → result A * list event.

#[global] Instance M_ret : MRet M := λ A a t, (Ok a, t).
#[global] Instance M_bind : MBind M := λ A B f m t,
  match m t with
  | (Ok a, t') => f a t'
  | (Raise e, t') => (Raise e, t')
  end.

Definition lift {A} (r : result A) : M A := λ t, (r, t).
Definition emit (ev : event) : M unit := λ t, (Ok (), t ++ [ev]).

(** [try: m  except Exception as e: h e] *)
Definition try_except {A} (m : M A) (h : exn → M A) : M A := λ t,
  match m t with
  | (Ok a, t') => (Ok a, t')
  | (Raise e, t') => h e t'
  end.

Definition nl : str := [10%N].

(** ** The AI Structurer *)

Definition TPL_MAP : gmap str str :=
  list_to_map
    [(u "template1", u "pro_minimal"); (u "template2", u "modern_creative");
     (u "template3", u "tech_profile"); (u "template_exec", u "executive");
     (u "template_founder", u "founder")].

Definition prompt_for (dumped : str) : str :=
  nl ++ u "You are a helpful assistant that produces JSON for resumes." ++ nl
  ++ u "Input (JSON):" ++ nl
  ++ dumped ++ nl
  ++ nl
  ++ u "Produce valid JSON with keys:" ++ nl
  ++ u "- summary : string (2-3 sentences)" ++ nl
  ++ u "- experiences : list of objects: {company, role, dates, bullets: [str...] }" ++ nl
  ++ u "- skills_line: string (comma separated)" ++ nl
  ++ u "Return only JSON." ++ nl.

(** The body of the [try] block of [call_openai_for_resume]. *)
Definition openai_request (env : Env) (api_key : str) (structured_input : pyval)
  : M pyval :=
  dumped ← lift (json_dumps env structured_input);
  let prompt := prompt_for dumped in
  emit (EvChat api_key (u "gpt-4o-mini") prompt 700);;
  resp ← lift (chat_completion_create env api_key prompt);
  choices ← lift (getitem_key resp (u "choices"));
  choice ← lift (getitem_idx choices 0);
  message ← lift (getitem_key choice (u "message"));
  text ← lift (getitem_key message (u "content"));
  parsed ← lift (json_loads env text);
  mret parsed.

Definition call_openai_for_resume (env : Env) (api_key : str)
    (structured_input : pyval) : M pyval :=
  if negb (OPENAI_AVAILABLE env) || negb (truthy (PStr api_key)) then mret PNone
  else
    try_except (openai_request env api_key structured_input)
      (λ e, emit (EvPrint (u "OpenAI error:") e);; mret PNone).

(** ** Rendering *)

Definition render_template (env : Env) (name : str)
    (context : list (str * pyval)) : M str :=
  emit (EvRender name context);;
  lift (render_template_lib env name context).

Definition render_resume_html (env : Env)
    (chosen_template form_data ai_struct profile_image_url : pyval) : M str :=
  let tpl :=
    match chosen_template with
    | PStr s => PStr (dict_get TPL_MAP s s)
    | _ => chosen_template
    end in
  render_template env (u "resume_templates/" ++ format env tpl ++ u ".html")
    [(u "form", form_data); (u "ai", ai_struct);
     (u "profile_image", profile_image_url)].

(** ** Export *)

Record Response := {
  body : bytes;
  as_attachment : bool;
  download_name : str;
  mimetype : str
}.

(** Flask's [send_file] for an in-memory file with an explicit mimetype. The
    download name goes into the [Content-Disposition] header: the library
    derives the header's file names from it, and a header value that holds a
    line break is refused with [ValueError]. *)
Definition send_file (env : Env) (b : bytes) (attach : bool) (name mime : str)
  : result Response :=
  download_names env name;;
  if decide (10%N ∈ name ∨ 13%N ∈ name) then Raise ValueError
  else Ok {| body := b; as_attachment := attach; download_name := name;
             mimetype := mime |}.

Definition docx_call (env : Env) (doc : list docx_op) (op : docx_op)
  : result (list docx_op) :=
  docx_do env doc op;; Ok (doc ++ [op]).

Definition canvas_call (env : Env) (p : list canvas_op) (op : canvas_op)
  : result (list canvas_op) :=
  canvas_do env p op;; Ok (p ++ [op]).

Definition docx_mimetype : str :=
  u "application/vnd.openxmlformats-officedocument.wordprocessingml.document".

Definition generate_docx_bytes (env : Env)
    (form_data ai_struct profile_image_path : pyval) : result bytes :=
  if negb (DOCX_AVAILABLE env) then Raise RuntimeError else
  let doc : list docx_op := [] in
  name ← py_get form_data (u "name") (PStr (u ""));
  doc ← docx_call env doc (AddHeading name 0);
  title ← py_get form_data (u "title") (PStr (u ""));
  doc ← docx_call env doc (AddParagraph title None);
  doc ← match profile_image_path with
        | PStr path =>
          if truthy profile_image_path && path_exists env path then
            match docx_call env doc (AddPicture path) with
            | Ok doc' => Ok doc'
            | Raise _ => Ok doc
            end
          else Ok doc
        | _ => Ok doc
        end;
  doc ← docx_call env doc (AddHeading (PStr (u "Summary")) 1);
  summary ← py_get ai_struct (u "summary") (PStr (u ""));
  doc ← docx_call env doc (AddParagraph summary None);
  doc ← docx_call env doc (AddHeading (PStr (u "Skills")) 1);
  skills ← py_get ai_struct (u "skills_line") (PStr (u ""));
  doc ← docx_call env doc (AddParagraph skills None);
  doc ← docx_call env doc (AddHeading (PStr (u "Experience")) 1);
  exs ← py_get ai_struct (u "experiences") (PList []);
  exs ← py_iter env exs;
  doc ← for_each (λ doc ex,
           role ← py_get ex (u "role") (PStr (u ""));
           company ← py_get ex (u "company") (PStr (u ""));
           doc ← docx_call env doc
                   (AddHeading
                      (PStr (format env role ++ u " — " ++ format env company)) 2);
           bs ← py_get ex (u "bullets") (PList []);
           bs ← py_iter env bs;
           for_each (λ doc b,
               docx_call env doc (AddParagraph b (Some (u "List Bullet"))))
             doc bs)
         doc exs;
  doc ← docx_call env doc (AddHeading (PStr (u "Education")) 1);
  education ← py_get form_data (u "education") (PStr (u ""));
  doc ← docx_call env doc (AddParagraph education None);
  Ok (docx_bytes env doc).

(** The [for line in ...] loop of [reportlab_pdf_bytes]: [p] is the canvas,
    [y] the vertical cursor. *)
Fixpoint draw_lines (env : Env) (x y : Z) (p : list canvas_op)
    (lines : list pyval) : result (list canvas_op) :=
  match lines with
  | [] => Ok p
  | line :: lines' =>
    text ← slice_to 95 line;
    p ← canvas_call env p (DrawString x y text);
    let y := (y - 14)%Z in
    if decide (y < 80)%Z then
      p ← canvas_call env p ShowPage;
      draw_lines env x 750 p lines'
    else draw_lines env x y p lines'
  end.

Definition reportlab_pdf_bytes (env : Env) (lines profile_image_path : pyval)
  : result bytes :=
  let p : list canvas_op := [] in
  let '(x, y) := (50, 750)%Z in
  p ← canvas_call env p (SetFont (u "Helvetica-Bold") 18);
  title ← py_get lines (u "title_line") (PStr (u "Resume"));
  p ← canvas_call env p (DrawString x y title);
  let y := (y - 24)%Z in
  p ← canvas_call env p (SetFont (u "Helvetica") 11);
  ls ← py_get lines (u "lines") (PList []);
  ls ← py_iter env ls;
  p ← draw_lines env x y p ls;
  p ← canvas_call env p Save;
  Ok (canvas_bytes env p).

(** ** Request handlers *)

Record Request := {
  method : str;
  form : gmap str str;
  (** the uploaded files: field name to client file name *)
  files : gmap str str
}.

(** The [# call OpenAI or fallback] lines of [index]. *)
Definition index_ai_struct (env : Env) (apikey : str) (form : gmap str str)
  : M pyval :=
  let ai_struct := PNone in
  ai_struct ← (if truthy (PStr apikey) && OPENAI_AVAILABLE env
               then call_openai_for_resume env apikey (form_value form)
               else mret ai_struct);
  if negb (truthy ai_struct)
  then lift (r ← fallback_structure form; Ok (structure_value r))
  else mret ai_struct.

(** The [form = {...}] dict [index] collects from the request, and [apikey]. *)
Definition index_field (request : Request) (k : string) : str :=
  strip (dict_get (form request) (u k) (u "")).

Definition index_form (request : Request) : gmap str str :=
  list_to_map
    [(u "name", index_field request "name");
     (u "title", index_field request "title");
     (u "email", index_field request "email");
     (u "phone", index_field request "phone");
     (u "linkedin", index_field request "linkedin");
     (u "location", index_field request "location");
     (u "skills", index_field request "skills");
     (u "achievements", index_field request "achievements");
     (u "experience_raw", index_field request "experience");
     (u "education", index_field request "education")].

(** The [# handle upload] lines of [index]: the image URL and path. *)
Definition index_upload (env : Env) (request : Request) : M (pyval * pyval) :=
  match files request !! u "profile_image" with
  | Some client_name =>
    if truthy (PStr client_name) then
      let filename := secure_filename env client_name in
      let unique := uuid4_hex env ++ u "_" ++ filename in
      let saved_path := u "static/uploads/" ++ unique in
      emit (EvSave saved_path);;
      lift (save_upload env saved_path);;
      mret (PStr (url_for_static env (u "uploads/" ++ unique)),
            PStr saved_path)
    else mret (PNone, PNone)
  | None => mret (PNone, PNone)
  end.

Definition index (env : Env) (request : Request) : M str :=
  if decide (method request = u "POST") then
    let request_form := form request in
    let form := index_form request in
    let apikey := index_field request "apikey" in
    let template_choice :=
      dict_get request_form (u "template_choice") (u "template1") in
    '(profile_image_url, profile_image_path) ← index_upload env request;
    ai_struct ← index_ai_struct env apikey form;
    resume_html ← render_resume_html env (PStr template_choice)
                    (form_value form) ai_struct profile_image_url;
    render_template env (u "result.html")
      [(u "resume_html", PStr resume_html); (u "form_data", form_value form);
       (u "ai_struct", ai_struct); (u "template_choice", PStr template_choice);
       (u "profile_image_path", profile_image_path);
       (u "profile_image_url", profile_image_url)]
  else render_template env (u "index.html") [].

Definition download_pdf (env : Env) (request : Request) : M Response :=
  form_data ←
    lift (json_loads env (opt_value (form request !! u "form_data_json")));
  ai_struct ← lift (json_loads env (opt_value (form request !! u "ai_json")));
  let template_choice := opt_value (form request !! u "template_choice") in
  let profile_image_path :=
    py_or (opt_value (form request !! u "profile_image_path")) PNone in
  html ← render_resume_html env template_choice form_data ai_struct
           profile_image_path;
  primary ←
    (if WEASY_AVAILABLE env then
       try_except
         (pdf ← lift (write_pdf env html);
          name ← lift (py_get form_data (u "name") (PStr (u "resume")));
          response ← lift (send_file env pdf true (format env name ++ u ".pdf")
                             (u "application/pdf"));
          mret (Some response))
         (λ e, emit (EvPrint (u "WeasyPrint failed:") e);; mret None)
     else mret None);
  match primary with
  | Some response => mret response
  | None =>
    title ← lift (py_get form_data (u "name") (PStr (u "")));
    summary ← lift (py_get ai_struct (u "summary") (PStr (u "")));
    skills ← lift (py_get ai_struct (u "skills_line") (PStr (u "")));
    let lines :=
      PDict (list_to_map [(u "title_line", title);
                          (u "lines", PList [summary; skills])]) in
    buf ← lift (reportlab_pdf_bytes env lines profile_image_path);
    name ← lift (py_get form_data (u "name") (PStr (u "resume")));
    lift (send_file env buf true (format env name ++ u ".pdf")
            (u "application/pdf"))
  end.

Definition download_docx (env : Env) (request : Request) : result Response :=
  form_data ← json_loads env (opt_value (form request !! u "form_data_json"));
  ai_struct ← json_loads env (opt_value (form request !! u "ai_json"));
  let profile_image_path :=
    py_or (opt_value (form request !! u "profile_image_path")) PNone in
  if DOCX_AVAILABLE env then
    docx_buf ← generate_docx_bytes env form_data ai_struct profile_image_path;
    name ← py_get form_data (u "name") (PStr (u "resume"));
    send_file env docx_buf true (format env name ++ u ".docx") docx_mimetype
  else
    name ← py_get form_data (u "name") (PStr (u ""));
    title ← py_get form_data (u "title") (PStr (u ""));
    summary ← py_get ai_struct (u "summary") (PStr (u ""));
    skills ← py_get ai_struct (u "skills_line") (PStr (u ""));
    let txt :=
      format env name ++ nl ++ format env title ++ nl ++ nl
      ++ format env summary ++ nl ++ nl
      ++ u "Skills: " ++ format env skills ++ nl in
    encoded ← encode txt;
    name' ← py_get form_data (u "name") (PStr (u "resume"));
    send_file env encoded true (format env name' ++ u ".txt") (u "text/plain").

(** ** Counting and classifying events *)

Definition is_chat (ev : event) : bool :=
  match ev with
  | EvChat _ _ _ _ => true
  | _ => false
  end.

(** How many times the completion API was called. *)
Definition chat_calls (t : list event) : nat := length (List.filter is_chat t).

(** A rendering event hands a truthy structure to the template, under
    either name the handlers use. *)
Definition renders_structure (ev : event) : Prop :=
  match ev with
  | EvRender _ context =>
    ∀ k v, (k, v) ∈ context → k = u "ai" ∨ k = u "ai_struct" → truthy v = true
  | _ => True
  end.

(** A computation that only adds events satisfying [P] to the trace, and
    whose value, when it returns one, satisfies [Q]. *)
Definition emits {A} (m : M A) (P : event → Prop) (Q : A → Prop) : Prop :=
  ∀ t, ∃ evs, (m t).2 = t ++ evs ∧ Forall P evs ∧ ∀ a, (m t).1 = Ok a → Q a.

(** What ReportLab is assumed to accept: every call except the drawing of
    something that is not a string. *)
Definition string_draw (op : canvas_op) : Prop :=
  match op with
  | DrawString _ _ (PStr _) => True
  | DrawString _ _ _ => False
  | _ => True
  end.

(** The canvas calls the line loop of [reportlab_pdf_bytes] makes for string
    lines, the cursor starting at height [y]. *)
Fixpoint line_ops (x y : Z) (ls : list str) : list canvas_op :=
  match ls with
  | [] => []
  | l :: ls' =>
    DrawString x y (PStr (take 95 l))
      :: (if decide (y - 14 < 80)%Z then ShowPage :: line_ops x 750 ls'
          else line_ops x (y - 14) ls')
  end.

(** What a canvas program draws: the texts, the heights they are drawn at,
    and the number of page breaks. *)
Definition drawn_texts (ops : list canvas_op) : list pyval :=
  omap (λ op, match op with DrawString _ _ text => Some text | _ => None end) ops.

Definition drawn_heights (ops : list canvas_op) : list Z :=
  omap (λ op, match op with DrawString _ y _ => Some y | _ => None end) ops.

Definition is_show_page (op : canvas_op) : bool :=
  match op with
  | ShowPage => true
  | _ => false
  end.

Definition page_breaks (ops : list canvas_op) : nat :=
  length (List.filter is_show_page ops).

(** A value that cannot be sliced. *)
Definition unsliceable (v : pyval) : Prop :=
  match v with
  | PNone | PBool _ | PInt _ | PFloat _ => True
  | _ => False
  end.

(** The document calls [generate_docx_bytes] makes for one entry of a
    structure whose fields are strings. *)
Definition entry_ops (e : ExperienceEntry) : list docx_op :=
  AddHeading (PStr (role e ++ u " — " ++ company e)) 2
    :: ((λ b, AddParagraph (PStr b) (Some (u "List Bullet"))) <$> bullets e).

Definition is_picture (op : docx_op) : bool :=
  match op with
  | AddPicture _ => true
  | _ => false
  end.

Definition is_bullet (op : docx_op) : bool :=
  match op with
  | AddParagraph _ (Some _) => true
  | _ => false
  end.

(** A computation that adds at most [n] completion calls to the trace. *)
Definition chat_bound {A} (m : M A) (n : nat) : Prop :=
  ∀ t, chat_calls (m t).2 ≤ chat_calls t + n.

(** A download name [send_file] accepts: the library can derive the header's
    file names from it, and it holds no line break. *)
Definition accepts_name (env : Env) (name : str) : Prop :=
  download_names env name = Ok () ∧ (10%N ∉ name) ∧ (13%N ∉ name).

(** The text of the plain-text fallback of [download_docx]. *)
Definition fallback_text (name title summary skills : str) : str :=
  name ++ nl ++ title ++ nl ++ nl ++ summary ++ nl ++ nl
  ++ u "Skills: " ++ skills ++ nl.

(** ** Sample inputs and a sample installation *)

Module Sample.

Definition dq : str := [34%N].

(** A 121-character description. *)
Definition long_block : str :=
  u "Acme—Engineer—2020-2022—" ++ replicate 121 120%N.

Definition long_form : gmap str str := {[ u "experience_raw" := long_block ]}.

Definition two_jobs : gmap str str :=
  {[ u "experience_raw" :=
       u "Acme—Engineer—2020-2022—Built systems||Globex—Lead—2022-2023" ]}.

(** JSON texts and the values [json.loads] gives for them. *)
Definition ada_json : str :=
  u "{" ++ dq ++ u "name" ++ dq ++ u ": " ++ dq ++ u "Ada" ++ dq ++ u "}".
Definition ada : pyval := PDict {[ u "name" := PStr (u "Ada") ]}.

Definition structure_json : str :=
  u "{" ++ dq ++ u "summary" ++ dq ++ u ": " ++ dq ++ u "Engineer" ++ dq
  ++ u ", " ++ dq ++ u "skills_line" ++ dq ++ u ": " ++ dq ++ u "Go" ++ dq
  ++ u "}".
Definition structure : pyval :=
  PDict (<[ u "summary" := PStr (u "Engineer") ]>
         {[ u "skills_line" := PStr (u "Go") ]}).

Definition number_summary_json : str :=
  u "{" ++ dq ++ u "summary" ++ dq ++ u ": 5}".
Definition number_summary : pyval := PDict {[ u "summary" := PInt 5 ]}.

Definition surrogate_json : str :=
  u "{" ++ dq ++ u "name" ++ dq ++ u ": " ++ dq ++ u "\ud800" ++ dq ++ u "}".
Definition surrogate : pyval := PDict {[ u "name" := PStr [0xD800%N] ]}.

(** A name of two lines: the JSON text escapes the line break. *)
Definition two_line_json : str :=
  u "{" ++ dq ++ u "name" ++ dq ++ u ": " ++ dq ++ u "A\nB" ++ dq ++ u "}".
Definition two_line : pyval :=
  PDict {[ u "name" := PStr (u "A" ++ nl ++ u "B") ]}.

Definition json_table : gmap str pyval :=
  list_to_map
    [(u "null", PNone); (u "{}", PDict ∅); (u "[]", PList []);
     (ada_json, ada); (structure_json, structure);
     (number_summary_json, number_summary); (surrogate_json, surrogate);
     (two_line_json, two_line)].

(** A chat completion whose message content is [text]. *)
Definition completion (text : str) : pyval :=
  PDict {[ u "choices" :=
    PList [PDict {[ u "message" := PDict {[ u "content" := PStr text ]} ]}] ]}.

(** An installation with the given capabilities, a completion API that
    answers [chat] and a primary PDF renderer that answers [pdf]; the JSON
    parser knows the texts of [json_table]. *)
Definition env (openai weasy docx : bool) (chat : result pyval)
    (pdf : result bytes) : Env :=
  {| OPENAI_AVAILABLE := openai;
     WEASY_AVAILABLE := weasy;
     DOCX_AVAILABLE := docx;
     json_loads_str := λ s,
       match json_table !! s with
       | Some v => Ok v
       | None => Raise JSONDecodeError
       end;
     json_dumps := λ _, Ok (u "{}");
     py_repr := λ _, u "?";
     chat_completion_create := λ _ _, chat;
     render_template_lib := λ name _, Ok (u "<html>" ++ name ++ u "</html>");
     url_for_static := λ f, u "/static/" ++ f;
     secure_filename := λ f, f;
     uuid4_hex := u "0123456789abcdef0123456789abcdef";
     save_upload := λ _, Ok ();
     write_pdf := λ _, pdf;
     canvas_do := λ _ _, Ok ();
     canvas_bytes := λ _, [Byte.x25; Byte.x50; Byte.x44; Byte.x46];
     docx_do := λ _ _, Ok ();
     docx_bytes := λ _, [Byte.x50; Byte.x4b];
     path_exists := λ _, false;
     download_names := λ name,
       if decide (Exists (λ c, (0xD800 ≤ c ≤ 0xDFFF)%N) name)
       then Raise UnicodeEncodeError else Ok ();
     dict_keys := λ d, (map_to_list d).*1 |}.

(** The model answers without any choice. *)
Definition no_choice_env : Env :=
  env true true false (Ok (PDict {[ u "choices" := PList [] ]}))
    (Raise (LibraryError (u "weasyprint"))).

(** The model answers with the JSON text [null]; ReportLab is the only PDF
    renderer that works. *)
Definition null_env : Env :=
  env true true false (Ok (completion (u "null")))
    (Raise (LibraryError (u "weasyprint"))).

(** No optional library at all: no completion API, no primary PDF renderer,
    no DOCX builder. *)
Definition bare_env : Env :=
  env false false false (Raise (LibraryError (u "openai")))
    (Raise (LibraryError (u "weasyprint"))).

(** An installation whose templates cannot be rendered. *)
Definition without_templates (e : Env) : Env :=
  {| OPENAI_AVAILABLE := OPENAI_AVAILABLE e;
     WEASY_AVAILABLE := WEASY_AVAILABLE e;
     DOCX_AVAILABLE := DOCX_AVAILABLE e;
     json_loads_str := json_loads_str e;
     json_dumps := json_dumps e;
     py_repr := py_repr e;
     chat_completion_create := chat_completion_create e;
     render_template_lib := λ _ _, Raise TemplateNotFound;
     url_for_static := url_for_static e;
     secure_filename := secure_filename e;
     uuid4_hex := uuid4_hex e;
     save_upload := save_upload e;
     write_pdf := write_pdf e;
     canvas_do := canvas_do e;
     canvas_bytes := canvas_bytes e;
     docx_do := docx_do e;
     docx_bytes := docx_bytes e;
     path_exists := path_exists e;
     download_names := download_names e;
     dict_keys := dict_keys e |}.

(** Every optional library present and working; the model answers [{}]. *)
Definition full_env : Env :=
  env true true true (Ok (completion (u "{}")))
    (Ok [Byte.x25; Byte.x50; Byte.x44; Byte.x46; Byte.x2d]).

Definition post (fields : list (str * str)) : Request :=
  {| method := u "POST"; form := list_to_map fields; files := ∅ |}.

(** A form posted with a key, and one posted with a key that is only
    white space. *)
Definition keyed_request : Request :=
  post [(u "name", u "Ada"); (u "title", u "Engineer");
        (u "skills", u "Python, Go"); (u "apikey", u "sk-test")].

Definition blank_key_request : Request :=
  post [(u "name", u "Ada"); (u "title", u " Engineer ");
        (u "skills", u "Python, , Go ,Rust"); (u "apikey", u "   ")].

Definition export_request : Request :=
  post [(u "form_data_json", ada_json); (u "ai_json", structure_json);
        (u "template_choice", u "template1")].

Definition number_request : Request :=
  post [(u "form_data_json", ada_json); (u "ai_json", number_summary_json);
        (u "template_choice", u "template1")].

Definition surrogate_request : Request :=
  post [(u "form_data_json", surrogate_json); (u "ai_json", structure_json)].

Definition empty_request : Request := post [].

Definition two_line_request : Request :=
  post [(u "form_data_json", two_line_json); (u "ai_json", structure_json);
        (u "template_choice", u "template1")].

End Sample.

(** ** Facts about the string primitives *)

Section split_facts.
Context (sep : str).

Lemma split_from_nonempty skip cur s : split_from sep skip cur s ≠ [].
Proof.
  revert skip cur. induction s as [|c s IH]; intros skip cur; simpl; [done|].
  destruct skip; [|by apply IH].
  destruct (startswith sep (c :: s)); [done | by apply IH].
Qed.

Lemma join_cons x l : l ≠ [] → join sep (x :: l) = x ++ sep ++ join sep l.
Proof. by destruct l. Qed.

Lemma startswith_prefix p s : startswith p s = true → take (length p) s = p.
Proof.
  revert s. induction p as [|a p IH]; intros [|b s]; simpl; try done.
  intros [->%N.eqb_eq Hp]%andb_prop. by rewrite IH.
Qed.

(** Joining the pieces with the separator gives the string back: the scan
    loses no character and cuts only at occurrences of the separator. *)
Lemma join_split_from s : sep ≠ [] → ∀ skip cur,
  skip ≤ length s →
  take skip s = drop (length sep - skip) sep →
  join sep (split_from sep skip cur s) = cur ++ drop skip s.
Proof.
  intros Hne. induction s as [|c s IH]; intros skip cur Hle Htk.
  - simpl in *. assert (skip = 0) as -> by lia. by rewrite app_nil_r.
  - destruct skip as [|k]; simpl.
    + destruct (startswith sep (c :: s)) eqn:Hsw.
      * rewrite join_cons by apply split_from_nonempty.
        destruct sep as [|a sep'] eqn:Hsep; [done|].
        pose proof (startswith_prefix _ _ Hsw) as Hp. simpl in Hp.
        injection Hp as -> Hp.
        rewrite IH.
        -- simpl. rewrite Nat.sub_0_r. f_equal. f_equal.
           by rewrite <- Hp at 1; rewrite take_drop.
        -- simpl. rewrite Nat.sub_0_r. rewrite <- Hp at 1.
           rewrite length_take. lia.
        -- simpl length. replace (S (length sep') - (S (length sep') - 1))
             with 1 by lia. simpl. by rewrite Nat.sub_0_r.
      * rewrite IH; simpl; [by rewrite <- app_assoc | lia | done].
    + simpl in Hle, Htk.
      assert (S k ≤ length sep) as Hk.
      { apply (f_equal length) in Htk. simpl in Htk.
        rewrite length_take, length_drop in Htk. lia. }
      rewrite IH; [done | lia |].
      replace (length sep - k) with (length sep - S k + 1) by lia.
      rewrite <- drop_drop.
      destruct (drop (length sep - S k) sep) as [|d ds]; [done|].
      by injection Htk as -> ->.
Qed.

Lemma join_pieces s : sep ≠ [] → join sep (pieces s sep) = s.
Proof.
  intros Hne. unfold pieces.
  rewrite join_split_from; simpl; [done | done | lia |].
  by rewrite Nat.sub_0_r, drop_all.
Qed.
End split_facts.

(** ** The Local Structurer computes what the specification describes *)

Section local_structurer.
Implicit Types (data : gmap str str) (block : str).

Lemma split_ok s sep : sep ≠ [] → split s sep = Ok (pieces s sep).
Proof. by destruct sep. Qed.

Lemma guarded_getitem (l : list str) i :
  (if decide (i < length l) then getitem l i else Ok (u ""))
  = Ok (default (u "") (l !! i)).
Proof.
  unfold getitem. destruct (decide (i < length l)) as [Hi|Hi].
  - destruct (lookup_lt_is_Some_2 l i Hi) as [x ->]. done.
  - rewrite lookup_ge_None_2 by lia. done.
Qed.

Lemma structure_block_eq ex_list block :
  structure_block ex_list block
  = Ok (ex_list ++ if decide (strip block = []) then []
                   else [Spec.entry_of (strip block)]).
Proof.
  unfold structure_block.
  destruct (decide (strip block = [])) as [E|E]; [by rewrite app_nil_r|].
  rewrite split_ok by done. cbn [mbind result_bind].
  rewrite !guarded_getitem. cbn [mbind result_bind].
  unfold Spec.entry_of, Spec.first_bullet, Spec.description, Spec.part.
  by destruct (decide (_ ≠ [])).
Qed.

Lemma for_each_structure_block blocks : ∀ ex_list,
  for_each structure_block ex_list blocks
  = Ok (ex_list
        ++ (Spec.entry_of <$> filter (λ b, b ≠ []) (strip <$> blocks))).
Proof.
  induction blocks as [|b blocks IH]; intros ex_list; simpl.
  - by rewrite app_nil_r.
  - rewrite structure_block_eq. cbn [mbind result_bind]. rewrite IH.
    rewrite filter_cons.
    destruct (decide (strip b = [])), (decide (strip b ≠ [])); try done.
    + by rewrite app_nil_r.
    + by rewrite <- app_assoc.
Qed.

Lemma strip_filter (l : list str) :
  strip <$> filter (λ s, strip s ≠ []) l = filter (λ t, t ≠ []) (strip <$> l).
Proof.
  induction l as [|x l IH]; [done|].
  rewrite fmap_cons, !filter_cons.
  destruct (decide (strip x ≠ [])); by rewrite ?fmap_cons, IH.
Qed.

Lemma fallback_structure_eq data :
  fallback_structure data = Ok (Spec.structure data).
Proof.
  unfold fallback_structure.
  rewrite !split_ok by done. cbn [mbind result_bind].
  rewrite for_each_structure_block. cbn [mbind result_bind].
  by rewrite strip_filter.
Qed.

Lemma dict_get_insert {V} (d : gmap str V) k v dflt :
  dict_get (<[k := v]> d) k dflt = v.
Proof. unfold dict_get. by rewrite lookup_insert_eq. Qed.

Lemma length_filter_strip (l : list str) :
  length (filter (λ t, t ≠ []) (strip <$> l))
  = length (filter (λ b, strip b ≠ []) l).
Proof. by rewrite <- strip_filter, length_fmap. Qed.
End local_structurer.

(** ** Properties of the Local Structurer *)

Section local_structurer_properties.
Implicit Types (data : gmap str str) (block : str).

(** C1. The experiences sequence has as many entries as there are blocks
    of [experience_raw], split on the separator [||], that are not empty
    once trimmed. *)
Theorem experiences_length data :
  ∃ r, fallback_structure data = Ok r ∧
    length (experiences r)
    = length (filter (λ b, strip b ≠ [])
                (pieces (dict_get data (u "experience_raw") (u "")) (u "||"))).
Proof.
  exists (Spec.structure data). split; [apply fallback_structure_eq|].
  simpl. unfold Spec.kept_blocks. by rewrite length_fmap, length_filter_strip.
Qed.

(** C2. For a block with a non-empty description: a description of at most
    120 characters is the first bullet verbatim; one of 121 characters or
    more gives its first 117 characters followed by three dots, 120
    characters in all. *)
Theorem description_bullet data i block :
  Spec.kept_blocks (dict_get data (u "experience_raw") (u "")) !! i
    = Some block →
  Spec.description block ≠ [] →
  ∃ r e, fallback_structure data = Ok r ∧ experiences r !! i = Some e ∧
    (length (Spec.description block) ≤ 120 →
     bullets e !! 0 = Some (Spec.description block)) ∧
    (121 ≤ length (Spec.description block) →
     bullets e !! 0 = Some (take 117 (Spec.description block) ++ u "...") ∧
     length (take 117 (Spec.description block) ++ u "...") = 120).
Proof.
  intros Hi Hd. exists (Spec.structure data), (Spec.entry_of block).
  split; [apply fallback_structure_eq|]. split.
  { simpl. by rewrite list_lookup_fmap, Hi. }
  simpl. unfold Spec.first_bullet.
  destruct (decide (Spec.description block ≠ [])); [|done].
  split; intros Hlen.
  - by destruct (decide (length (Spec.description block) ≤ 120)).
  - destruct (decide (length (Spec.description block) ≤ 120)); [lia|].
    split; [done|]. rewrite length_app, length_take.
    change (length (u "...")) with 3. lia.
Qed.

(** C3. [skills_line] is the join, with a comma and a space, of the
    trimmed tokens of [skills] split on the comma, the empty ones removed
    and the others in their original order; the specification's example
    holds. *)
Theorem skills_line_projection data :
  ∃ r, fallback_structure data = Ok r ∧
    let tokens := strip <$> pieces (dict_get data (u "skills") (u "")) (u ",") in
    let kept := filter (λ t, t ≠ []) tokens in
    skills_line r = join (u ", ") kept ∧
    kept `sublist_of` tokens ∧
    Forall (λ t, t ≠ []) kept ∧
    (data !! u "skills" = Some (u "Python, , Go ,Rust") →
     skills_line r = u "Python, Go, Rust").
Proof.
  exists (Spec.structure data). split; [apply fallback_structure_eq|].
  simpl. split; [done|]. split; [apply sublist_filter|]. split.
  - apply Forall_forall. by intros t [Ht _]%list_elem_of_filter.
  - intros Hs. unfold Spec.skill_tokens, dict_get. rewrite Hs. simpl.
    vm_compute. reflexivity.
Qed.

(** C6. Every entry has exactly three bullets, the last two being the
    fixed fillers; when the description part of the block is absent or
    empty after trimming, the first is "Served as {role} at {company}";
    the specification's two-block example holds. *)
Theorem placeholder_and_fillers data i block :
  Spec.kept_blocks (dict_get data (u "experience_raw") (u "")) !! i
    = Some block →
  ∃ r e, fallback_structure data = Ok r ∧ experiences r !! i = Some e ∧
    company e = Spec.part 0 block ∧ role e = Spec.part 1 block ∧
    (∃ b, bullets e = [b; u "Delivered key results";
                       u "Collaborated across teams"]) ∧
    (Spec.description block = [] →
     bullets e !! 0 = Some (u "Served as " ++ role e ++ u " at " ++ company e)) ∧
    (data !! u "experience_raw"
       = Some (u "Acme—Engineer—2020-2022—Built systems||Globex—Lead—2022-2023") →
     (λ e, bullets e !! 0) <$> experiences r
       = [Some (u "Built systems"); Some (u "Served as Lead at Globex")]).
Proof.
  intros Hi. exists (Spec.structure data), (Spec.entry_of block).
  split; [apply fallback_structure_eq|]. split.
  { simpl. by rewrite list_lookup_fmap, Hi. }
  do 2 (split; [done|]). split; [by eexists|]. split.
  - intros Hd. simpl. unfold Spec.first_bullet.
    by destruct (decide (Spec.description block ≠ [])).
  - intros Hraw. simpl. unfold dict_get. rewrite Hraw. simpl.
    vm_compute. reflexivity.
Qed.

(** C7. The summary is "{title} with experience in {X}." where X joins,
    with a comma and a space, the first three trimmed tokens of [skills]
    split on the comma (a token that is empty after trimming still
    counts as one of the three). *)
Theorem summary_sentence data :
  ∃ r, fallback_structure data = Ok r ∧
    summary r
    = dict_get data (u "title") (u "") ++ u " with experience in "
      ++ join (u ", ")
           (take 3 (strip <$> pieces (dict_get data (u "skills") (u "")) (u ",")))
      ++ u "." ∧
    (data !! u "title" = Some (u "Engineer") →
     data !! u "skills" = Some (u "Python, , Go ,Rust") →
     summary r = u "Engineer with experience in Python, , Go.").
Proof.
  exists (Spec.structure data). split; [apply fallback_structure_eq|].
  split; [done|]. intros Ht Hs. simpl. unfold Spec.skill_tokens, dict_get.
  rewrite Ht, Hs. simpl. vm_compute. reflexivity.
Qed.

(** C8. The Local Structurer is total: for every form, whatever keys are
    missing or empty, it returns a structure and raises nothing; neither
    does the body of its loop. *)
Theorem fallback_structure_total data :
  (∃ r, fallback_structure data = Ok r) ∧
  (∀ ex_list block, ∃ l, structure_block ex_list block = Ok l) ∧
  fallback_structure ∅
  = Ok {| summary := u " with experience in ."; experiences := [];
          skills_line := u "" |}.
Proof.
  split; [|split].
  - eexists. apply fallback_structure_eq.
  - intros ex_list block. eexists. apply structure_block_eq.
  - vm_compute. reflexivity.
Qed.

Lemma description_bullet_witness :
  ∃ r e, fallback_structure Sample.long_form = Ok r ∧
    experiences r !! 0 = Some e ∧
    (length (Spec.description Sample.long_block) ≤ 120 →
     bullets e !! 0 = Some (Spec.description Sample.long_block)) ∧
    (121 ≤ length (Spec.description Sample.long_block) →
     bullets e !! 0
       = Some (take 117 (Spec.description Sample.long_block) ++ u "...") ∧
     length (take 117 (Spec.description Sample.long_block) ++ u "...") = 120).
Proof.
  apply (description_bullet Sample.long_form 0 Sample.long_block).
  - vm_compute. reflexivity.
  - vm_compute. discriminate.
Defined.

Lemma placeholder_and_fillers_witness :
  ∃ r e, fallback_structure Sample.two_jobs = Ok r ∧
    experiences r !! 1 = Some e ∧
    company e = Spec.part 0 (u "Globex—Lead—2022-2023") ∧
    role e = Spec.part 1 (u "Globex—Lead—2022-2023") ∧
    (∃ b, bullets e = [b; u "Delivered key results";
                       u "Collaborated across teams"]) ∧
    (Spec.description (u "Globex—Lead—2022-2023") = [] →
     bullets e !! 0 = Some (u "Served as " ++ role e ++ u " at " ++ company e)) ∧
    (Sample.two_jobs !! u "experience_raw"
       = Some (u "Acme—Engineer—2020-2022—Built systems||Globex—Lead—2022-2023") →
     (λ e, bullets e !! 0) <$> experiences r
       = [Some (u "Built systems"); Some (u "Served as Lead at Globex")]).
Proof.
  apply (placeholder_and_fillers Sample.two_jobs 1 (u "Globex—Lead—2022-2023")).
  vm_compute. reflexivity.
Defined.

(** The boundary of the truncation rule, computed. *)
Example bullet_of_120_characters :
  fallback_structure
    {[ u "experience_raw" := u "Acme—Engineer—2020-2022—" ++ replicate 120 120%N ]}
  = Ok {| summary := u " with experience in ."; skills_line := u "";
          experiences :=
            [{| company := u "Acme"; role := u "Engineer";
                dates := u "2020-2022";
                bullets := [replicate 120 120%N; u "Delivered key results";
                            u "Collaborated across teams"] |}] |}.
Proof. vm_compute. reflexivity. Qed.

Example bullet_of_121_characters :
  fallback_structure Sample.long_form
  = Ok {| summary := u " with experience in ."; skills_line := u "";
          experiences :=
            [{| company := u "Acme"; role := u "Engineer";
                dates := u "2020-2022";
                bullets := [replicate 117 120%N ++ u "...";
                            u "Delivered key results";
                            u "Collaborated across teams"] |}] |}.
Proof. vm_compute. reflexivity. Qed.
End local_structurer_properties.

(** ** Properties of the AI Structurer *)

Section ai_structurer.
Context (env : Env).
Implicit Types (api_key : str) (input : pyval) (t : list event).

Lemma bind_ok_inv {A B} (m : result A) (f : A → result B) b :
  m ≫= f = Ok b → ∃ a, m = Ok a ∧ f a = Ok b.
Proof. destruct m; [eauto | done]. Qed.

(** The request leaves at most one event, the API call. *)
Lemma openai_request_trace api_key input t :
  (openai_request env api_key input t).2 = t
  ∨ ∃ ev, is_chat ev = true
          ∧ (openai_request env api_key input t).2 = t ++ [ev].
Proof.
  unfold openai_request, mbind, M_bind, lift, emit, mret, M_ret.
  repeat case_match; simplify_eq/=; eauto.
  all: right; eexists; split; [|reflexivity]; done.
Qed.

(** Its outcome is the outcome of its steps, in order: serialising the
    form, the API call, walking the response down to the message content,
    parsing that content as JSON. *)
Lemma openai_request_steps api_key input t :
  (openai_request env api_key input t).1
  = (dumped ← json_dumps env input;
     resp ← chat_completion_create env api_key (prompt_for dumped);
     choices ← getitem_key resp (u "choices");
     choice ← getitem_idx choices 0;
     message ← getitem_key choice (u "message");
     text ← getitem_key message (u "content");
     json_loads env text).
Proof.
  unfold openai_request, mbind, M_bind, result_bind, lift, emit, mret, M_ret.
  destruct (json_dumps env input) as [dumped|]; simpl; [|done].
  destruct (chat_completion_create env _ _) as [resp|]; simpl; [|done].
  destruct (getitem_key resp _) as [choices|]; simpl; [|done].
  destruct (getitem_idx choices _) as [choice|]; simpl; [|done].
  destruct (getitem_key choice _) as [message|]; simpl; [|done].
  destruct (getitem_key message _) as [text|]; simpl; [|done].
  by destruct (json_loads env text).
Qed.

Lemma call_openai_cases api_key input t :
  call_openai_for_resume env api_key input t
  = if negb (OPENAI_AVAILABLE env) || negb (truthy (PStr api_key))
    then (Ok PNone, t)
    else match openai_request env api_key input t with
         | (Ok a, t') => (Ok a, t')
         | (Raise e, t') => (Ok PNone, t' ++ [EvPrint (u "OpenAI error:") e])
         end.
Proof.
  unfold call_openai_for_resume, try_except.
  destruct (negb _ || negb _); [done|].
  by destruct (openai_request env api_key input t) as [[a|e] t'].
Qed.

Lemma truthy_str s : truthy (PStr s) = false ↔ s = [].
Proof. simpl. rewrite negb_false_iff, bool_decide_eq_true. done. Qed.

Lemma chat_calls_app t1 t2 : chat_calls (t1 ++ t2) = chat_calls t1 + chat_calls t2.
Proof. unfold chat_calls. by rewrite List.filter_app, length_app. Qed.

(** The AI Structurer never raises, and what it leaves in the trace beyond
    at most one API call is the report of the failure. *)
Lemma call_openai_trace api_key input t :
  ∃ v evs, call_openai_for_resume env api_key input t = (Ok v, t ++ evs)
    ∧ chat_calls evs ≤ 1 ∧ Forall renders_structure evs.
Proof.
  assert (∀ (v : pyval) t' evs,
    t' = t ++ evs → chat_calls evs ≤ 1 → Forall renders_structure evs →
    ∃ v' evs', (Ok v, t') = (Ok v', t ++ evs') ∧ chat_calls evs' ≤ 1
               ∧ Forall renders_structure evs') as Hclose.
  { intros v t' evs -> ??. by exists v, evs. }
  rewrite call_openai_cases.
  destruct (negb _ || negb _).
  { apply (Hclose _ _ []); [by rewrite app_nil_r | cbv; lia | constructor]. }
  destruct (openai_request_trace api_key input t) as [Ht|(ev & Hev & Ht)];
    destruct (openai_request env api_key input t) as [[a|e] t'];
    simpl in Ht; subst t'.
  - apply (Hclose _ _ []); [by rewrite app_nil_r | cbv; lia | constructor].
  - eapply Hclose; [done | cbv; lia | by repeat constructor].
  - destruct ev; try done.
    eapply Hclose; [done | cbv; lia | by repeat constructor].
  - destruct ev; try done. rewrite <- app_assoc.
    eapply Hclose; [done | cbv; lia | by repeat constructor].
Qed.

(** C9 (amended). The AI Structurer never raises. It answers [None]
    exactly when the key is empty, the capability is missing, a step of
    the call raises, or the response text parses to JSON [null]; otherwise
    it answers the parsed JSON as it is. The completion API is called at
    most once. *)
Theorem call_openai_absent api_key input t :
  ∃ v, (call_openai_for_resume env api_key input t).1 = Ok v ∧
    (v = PNone ↔
       api_key = [] ∨ OPENAI_AVAILABLE env = false
       ∨ (∃ e, (openai_request env api_key input t).1 = Raise e)
       ∨ (openai_request env api_key input t).1 = Ok PNone) ∧
    (api_key ≠ [] → OPENAI_AVAILABLE env = true →
     ∀ w, (openai_request env api_key input t).1 = Ok w → v = w) ∧
    chat_calls (call_openai_for_resume env api_key input t).2
    ≤ chat_calls t + 1.
Proof.
  destruct (call_openai_trace api_key input t) as (v & evs & Hc & Hn & _).
  exists v. rewrite Hc. split; [done|]. simpl.
  split; [|split; [|rewrite chat_calls_app; lia]];
    rewrite call_openai_cases in Hc;
    destruct (OPENAI_AVAILABLE env), (truthy (PStr api_key)) eqn:Hk;
    simpl in Hc; rewrite ?truthy_str in Hk;
    try (destruct (openai_request env api_key input t) as [[a|e] t']);
    simplify_eq/=; try (intros; congruence); try (split; [by eauto 6|done]).
  split; [intros ->; eauto 6|].
  intros [->|[?|[[? ?]|?]]]; by simplify_eq/=.
Qed.

(** The claim as first stated fails when the model answers with the JSON
    text [null]: the key is there, the capability is there, no step
    raises, and the answer is [None] all the same. *)
Lemma null_completion_is_absent :
  ¬ ((call_openai_for_resume Sample.null_env (u "sk-test") (form_value ∅) []).1
       = Ok PNone
     ↔ u "sk-test" = []
       ∨ OPENAI_AVAILABLE Sample.null_env = false
       ∨ ∃ e, (openai_request Sample.null_env (u "sk-test") (form_value ∅) []).1
              = Raise e).
Proof.
  intros [H _]. destruct H as [H|[H|[e H]]].
  - vm_compute. reflexivity.
  - vm_compute in H. discriminate.
  - vm_compute in H. discriminate.
  - vm_compute in H. discriminate.
Qed.

Example null_completion_trace :
  call_openai_for_resume Sample.null_env (u "sk-test") (form_value ∅) []
  = (Ok PNone,
     [EvChat (u "sk-test") (u "gpt-4o-mini") (prompt_for (u "{}")) 700]).
Proof. vm_compute. reflexivity. Qed.

End ai_structurer.

(** ** Properties of the index handler *)

Section trace_rules.
Context {A B : Type} (P : event → Prop).

Lemma emits_ret (a : A) (Q : A → Prop) : Q a → emits (mret a) P Q.
Proof.
  intros Ha t. exists []. rewrite app_nil_r.
  split; [done|]. split; [constructor|]. by intros ? [= <-].
Qed.

Lemma emits_lift (r : result A) : emits (lift r) P (λ _, True).
Proof.
  intros t. exists []. rewrite app_nil_r.
  split; [done|]. split; [constructor | done].
Qed.

Lemma emits_emit ev : P ev → emits (emit ev) P (λ _, True).
Proof.
  intros Hev t. exists [ev].
  split; [done|]. split; [by repeat constructor | done].
Qed.

Lemma emits_bind (m : M A) (f : A → M B) (Q : A → Prop) (R : B → Prop) :
  emits m P Q → (∀ a, Q a → emits (f a) P R) → emits (m ≫= f) P R.
Proof.
  intros Hm Hf t. destruct (Hm t) as (evs & Ht & Hevs & Hq).
  unfold mbind, M_bind. destruct (m t) as [[a|e] t1]; simpl in *; subst t1.
  - destruct (Hf a (Hq a eq_refl) (t ++ evs)) as (evs' & Ht' & Hevs' & Hr).
    exists (evs ++ evs'). rewrite Ht', <- app_assoc.
    split; [done|]. split; [by apply Forall_app|done].
  - exists evs. split; [done|]. split; [done|]. by intros ? [=].
Qed.
End trace_rules.

Section index_handler.
Context (env : Env).
Implicit Types (form : gmap str str) (request : Request).

Lemma truthy_dict_insert k v d : truthy (PDict (<[k := v]> d)) = true.
Proof.
  simpl. rewrite negb_true_iff, bool_decide_eq_false, map_size_empty_iff.
  apply insert_non_empty.
Qed.

Lemma truthy_structure_value r : truthy (structure_value r) = true.
Proof.
  unfold structure_value. simpl list_to_map. apply truthy_dict_insert.
Qed.

Lemma index_choice form (a : pyval) t :
  (if negb (truthy a)
   then lift (r ← fallback_structure form; Ok (structure_value r))
   else mret a) t
  = (Ok (if truthy a then a else structure_value (Spec.structure form)), t).
Proof.
  destruct (truthy a); [reflexivity|]. unfold negb, lift.
  rewrite fallback_structure_eq. reflexivity.
Qed.

Lemma index_choice_spec form (a : pyval) :
  let v := if truthy a then a else structure_value (Spec.structure form) in
  (if truthy a then v = a
   else ∃ r, fallback_structure form = Ok r ∧ v = structure_value r)
  ∧ truthy v = true.
Proof.
  intros v. subst v. destruct (truthy a) eqn:Ha; [by split|].
  split; [|apply truthy_structure_value].
  exists (Spec.structure form). split; [apply fallback_structure_eq|reflexivity].
Qed.

(** What [index] passes on: the AI result when it is truthy, the Local
    Structurer's dict otherwise. *)
Lemma index_ai_struct_spec apikey form t :
  ∃ a v evs,
    (if truthy (PStr apikey) && OPENAI_AVAILABLE env
     then call_openai_for_resume env apikey (form_value form) t
     else (Ok PNone, t)) = (Ok a, t ++ evs) ∧
    index_ai_struct env apikey form t = (Ok v, t ++ evs) ∧
    Forall renders_structure evs ∧
    (if truthy a then v = a
     else ∃ r, fallback_structure form = Ok r ∧ v = structure_value r) ∧
    truthy v = true.
Proof.
  unfold index_ai_struct, mbind, M_bind.
  destruct (truthy (PStr apikey) && OPENAI_AVAILABLE env).
  - destruct (call_openai_trace env apikey (form_value form) t)
      as (a & evs & -> & _ & Hevs).
    exists a, (if truthy a then a else structure_value (Spec.structure form)), evs.
    rewrite index_choice. destruct (index_choice_spec form a). by repeat split.
  - exists PNone, (structure_value (Spec.structure form)), [].
    rewrite app_nil_r.
    change (@mret M _ pyval PNone t) with (@Ok pyval PNone, t).
    cbv beta iota. rewrite index_choice.
    destruct (index_choice_spec form PNone). by repeat split.
Qed.

Lemma index_ai_struct_emits apikey form :
  emits (index_ai_struct env apikey form) renders_structure
    (λ v, truthy v = true).
Proof.
  intros t.
  destruct (index_ai_struct_spec apikey form t)
    as (a & v & evs & _ & -> & Hevs & _ & Hv).
  exists evs. split; [done|]. split; [done|]. by intros ? [= <-].
Qed.

Lemma renders_nil name : renders_structure (EvRender name []).
Proof. intros k v Hk. by apply elem_of_nil in Hk. Qed.

Lemma renders_cons name k v context :
  (k = u "ai" ∨ k = u "ai_struct" → truthy v = true) →
  renders_structure (EvRender name context) →
  renders_structure (EvRender name ((k, v) :: context)).
Proof.
  intros Hv Hctx k' v' [[= -> ->]|Hk]%elem_of_cons Hai; [auto|].
  by apply (Hctx k' v').
Qed.

Lemma render_template_emits name context :
  renders_structure (EvRender name context) →
  emits (render_template env name context) renders_structure (λ _, True).
Proof.
  intros Hctx. unfold render_template.
  eapply emits_bind; [by apply emits_emit|]. intros _ _. apply emits_lift.
Qed.

Lemma index_upload_emits request :
  emits (index_upload env request) renders_structure (λ _, True).
Proof.
  unfold index_upload. destruct (files request !! _) as [client_name|].
  - destruct (truthy _); [|by apply emits_ret].
    eapply emits_bind; [by apply emits_emit|]. intros _ _.
    eapply emits_bind; [apply emits_lift|]. intros _ _. by apply emits_ret.
  - by apply emits_ret.
Qed.

Lemma index_emits request :
  emits (index env request) renders_structure (λ _, True).
Proof.
  assert (∀ k : str, k ≠ u "ai" → k ≠ u "ai_struct" → ∀ v : pyval,
            k = u "ai" ∨ k = u "ai_struct" → truthy v = true) as Hother.
  { intros k ? ? v [?|?]; congruence. }
  unfold index. destruct (decide _).
  - eapply emits_bind; [apply index_upload_emits|].
    intros [profile_image_url profile_image_path] _.
    eapply emits_bind; [apply index_ai_struct_emits|]. intros v Hv.
    eapply emits_bind.
    + apply render_template_emits.
      apply renders_cons; [by apply Hother|].
      apply renders_cons; [done|].
      apply renders_cons; [by apply Hother|]. apply renders_nil.
    + intros resume_html _. apply render_template_emits.
      apply renders_cons; [by apply Hother|].
      apply renders_cons; [by apply Hother|].
      apply renders_cons; [done|].
      do 3 (apply renders_cons; [by apply Hother|]). apply renders_nil.
  - apply render_template_emits, renders_nil.
Qed.

(** A posted form, once the upload is dealt with: [index] chooses the
    structure and renders the two templates. *)
Lemma index_post request t url path t0 :
  method request = u "POST" →
  index_upload env request t = (Ok (url, path), t0) →
  index env request t
  = (let template_choice :=
       dict_get (form request) (u "template_choice") (u "template1") in
     let form := index_form request in
     ai_struct ← index_ai_struct env (index_field request "apikey") form;
     resume_html ← render_resume_html env (PStr template_choice)
                     (form_value form) ai_struct url;
     render_template env (u "result.html")
       [(u "resume_html", PStr resume_html); (u "form_data", form_value form);
        (u "ai_struct", ai_struct);
        (u "template_choice", PStr template_choice);
        (u "profile_image_path", path); (u "profile_image_url", url)]) t0.
Proof.
  intros Hm Hu. unfold index. rewrite decide_True by done. cbv zeta.
  unfold mbind at 1, M_bind at 1. by rewrite Hu.
Qed.

(** C10. In the index handler the Local Structurer's output replaces
    every falsy AI result, the empty dict and the empty list included, and
    the structure so chosen is the one [index] hands to both templates: what
    reaches them is never empty or absent. *)
Theorem index_structure_never_empty request t url path t0 :
  method request = u "POST" →
  index_upload env request t = (Ok (url, path), t0) →
  let template_choice :=
    dict_get (form request) (u "template_choice") (u "template1") in
  let form := index_form request in
  let apikey := index_field request "apikey" in
  let resume_template :=
    u "resume_templates/" ++ dict_get TPL_MAP template_choice template_choice
    ++ u ".html" in
  ∃ a v t1,
    (if truthy (PStr apikey) && OPENAI_AVAILABLE env
     then call_openai_for_resume env apikey (form_value form) t0
     else (Ok PNone, t0)) = (Ok a, t1) ∧
    (if truthy a then v = a
     else ∃ r, fallback_structure form = Ok r ∧ v = structure_value r) ∧
    truthy v = true ∧
    index env request t
    = (resume_html ← render_resume_html env (PStr template_choice)
                       (form_value form) v url;
       render_template env (u "result.html")
         [(u "resume_html", PStr resume_html);
          (u "form_data", form_value form); (u "ai_struct", v);
          (u "template_choice", PStr template_choice);
          (u "profile_image_path", path); (u "profile_image_url", url)]) t1 ∧
    (index env request t).2
    = t1 ++
      EvRender resume_template
        [(u "form", form_value form); (u "ai", v); (u "profile_image", url)]
      :: match render_template_lib env resume_template
                 [(u "form", form_value form); (u "ai", v);
                  (u "profile_image", url)] with
         | Ok resume_html =>
           [EvRender (u "result.html")
              [(u "resume_html", PStr resume_html);
               (u "form_data", form_value form); (u "ai_struct", v);
               (u "template_choice", PStr template_choice);
               (u "profile_image_path", path);
               (u "profile_image_url", url)]]
         | Raise _ => []
         end ∧
    truthy (PDict ∅) = false ∧ truthy (PList []) = false ∧
    truthy PNone = false ∧
    Forall renders_structure (drop (length t) (index env request t).2).
Proof.
  intros Hm Hu template_choice form apikey resume_template.
  destruct (index_ai_struct_spec apikey form t0)
    as (a & v & evs & Hstep & Hai & _ & Hv & Htruthy).
  exists a, v, (t0 ++ evs).
  assert (index env request t
    = (resume_html ← render_resume_html env (PStr template_choice)
                       (form_value form) v url;
       render_template env (u "result.html")
         [(u "resume_html", PStr resume_html);
          (u "form_data", form_value form); (u "ai_struct", v);
          (u "template_choice", PStr template_choice);
          (u "profile_image_path", path); (u "profile_image_url", url)])
      (t0 ++ evs)) as Heq.
  { rewrite (index_post _ _ _ _ _ Hm Hu). cbv zeta.
    unfold mbind at 1, M_bind at 1. fold form apikey. by rewrite Hai. }
  do 4 (split; [done|]). split; [|do 3 (split; [reflexivity|])].
  - rewrite Heq. unfold render_resume_html, render_template, emit, lift, mbind,
      M_bind. cbn [format]. fold resume_template.
    destruct (render_template_lib env resume_template _); cbn [snd].
    + by rewrite <- !app_assoc.
    + done.
  - destruct (index_emits request t) as (evs' & -> & Hevs & _).
    by rewrite drop_app_length.
Qed.
End index_handler.

Lemma index_structure_never_empty_witness :
  ∃ v r t1,
    fallback_structure (index_form Sample.keyed_request) = Ok r ∧
    v = structure_value r ∧ skills_line r = u "Python, Go" ∧
    truthy v = true ∧
    (index Sample.full_env Sample.keyed_request []).2
    = t1 ++
      [EvRender (u "resume_templates/pro_minimal.html")
         [(u "form", form_value (index_form Sample.keyed_request));
          (u "ai", v); (u "profile_image", PNone)];
       EvRender (u "result.html")
         [(u "resume_html",
           PStr (u "<html>resume_templates/pro_minimal.html</html>"));
          (u "form_data", form_value (index_form Sample.keyed_request));
          (u "ai_struct", v); (u "template_choice", PStr (u "template1"));
          (u "profile_image_path", PNone); (u "profile_image_url", PNone)]].
Proof.
  destruct (index_structure_never_empty Sample.full_env Sample.keyed_request
              [] PNone PNone [])
    as (a & v & t1 & Hstep & Hv & Htruthy & _ & Htrace & _).
  - reflexivity.
  - reflexivity.
  - assert (a = PDict ∅) as ->.
    { vm_compute in Hstep. by injection Hstep as <- _. }
    destruct Hv as (r & Hr & ->). exists (structure_value r), r, t1.
    split; [exact Hr|]. split; [reflexivity|].
    split.
    + rewrite fallback_structure_eq in Hr. injection Hr as <-.
      vm_compute. reflexivity.
    + split; [exact Htruthy|]. exact Htrace.
Defined.

(** ** The download response *)

Section download_response.
Context (env : Env).

Lemma send_file_ok b attach name mime :
  accepts_name env name →
  send_file env b attach name mime
  = Ok {| body := b; as_attachment := attach; download_name := name;
          mimetype := mime |}.
Proof.
  intros (Hn & H10 & H13). unfold send_file. rewrite Hn.
  cbn [mbind result_bind]. rewrite decide_False; [done|]. by intros [?|?].
Qed.

Lemma send_file_inv b attach name mime response :
  send_file env b attach name mime = Ok response →
  accepts_name env name
  ∧ response = {| body := b; as_attachment := attach; download_name := name;
                  mimetype := mime |}.
Proof.
  unfold send_file.
  destruct (download_names env name) as [[]|] eqn:Hn; [|discriminate].
  cbn [mbind result_bind]. destruct (decide _) as [|Hno]; [discriminate|].
  intros [= <-]. split; [|done]. split; [done|].
  split; intros ?; apply Hno; auto.
Qed.

Lemma send_file_line_break b attach name mime :
  download_names env name = Ok () → 10%N ∈ name ∨ 13%N ∈ name →
  send_file env b attach name mime = Raise ValueError.
Proof.
  intros Hn Hbreak. unfold send_file. rewrite Hn. cbn [mbind result_bind].
  by rewrite decide_True.
Qed.
End download_response.

(** ** Properties of the PDF export *)

Section pdf_export.
Context (env : Env).
Implicit Types (request : Request) (t : list event).

Lemma canvas_call_ok p op :
  (∀ p op, string_draw op → canvas_do env p op = Ok ()) →
  string_draw op → canvas_call env p op = Ok (p ++ [op]).
Proof. intros Hc Hop. unfold canvas_call. by rewrite Hc. Qed.

Lemma draw_lines_strings x ls : ∀ y p,
  (∀ p op, string_draw op → canvas_do env p op = Ok ()) →
  draw_lines env x y p (PStr <$> ls) = Ok (p ++ line_ops x y ls).
Proof.
  induction ls as [|l ls IH]; intros y p Hc.
  - simpl. by rewrite app_nil_r.
  - rewrite fmap_cons. cbn [draw_lines slice_to mbind result_bind].
    rewrite canvas_call_ok by done. cbn [mbind result_bind line_ops].
    destruct (decide (y - 14 < 80)%Z).
    + rewrite canvas_call_ok by done. cbn [mbind result_bind].
      rewrite IH by done. by rewrite <- !app_assoc.
    + rewrite IH by done. by rewrite <- !app_assoc.
Qed.

(** The fallback renderer on a title and string lines. *)
Lemma reportlab_pdf_bytes_strings (d : gmap str pyval) title ls path :
  (∀ p op, string_draw op → canvas_do env p op = Ok ()) →
  dict_get d (u "title_line") (PStr (u "Resume")) = PStr title →
  dict_get d (u "lines") (PList []) = PList (PStr <$> ls) →
  reportlab_pdf_bytes env (PDict d) path
  = Ok (canvas_bytes env
          ([SetFont (u "Helvetica-Bold") 18; DrawString 50 750 (PStr title);
            SetFont (u "Helvetica") 11] ++ line_ops 50 726 ls ++ [Save])).
Proof.
  intros Hc Ht Hl. unfold reportlab_pdf_bytes.
  rewrite canvas_call_ok by done.
  cbn [mbind result_bind py_get]. rewrite Ht.
  rewrite canvas_call_ok by done. cbn [mbind result_bind].
  rewrite canvas_call_ok by done. cbn [mbind result_bind].
  rewrite Hl. cbn [py_iter mbind result_bind].
  change (750 - 24)%Z with 726%Z.
  rewrite draw_lines_strings by done. cbn [mbind result_bind].
  rewrite canvas_call_ok by done. cbn [mbind result_bind].
  by rewrite <- !app_assoc.
Qed.

(** The primary path: the renderer's bytes are sent, and nothing is
    printed. *)
Lemma download_pdf_primary_path request t fd ai_struct html t1 pdf :
  json_loads env (opt_value (form request !! u "form_data_json"))
    = Ok (PDict fd) →
  json_loads env (opt_value (form request !! u "ai_json")) = Ok ai_struct →
  render_resume_html env (opt_value (form request !! u "template_choice"))
    (PDict fd) ai_struct
    (py_or (opt_value (form request !! u "profile_image_path")) PNone) t
    = (Ok html, t1) →
  accepts_name env
    (format env (dict_get fd (u "name") (PStr (u "resume"))) ++ u ".pdf") →
  WEASY_AVAILABLE env = true →
  write_pdf env html = Ok pdf →
  download_pdf env request t
  = (Ok {| body := pdf; as_attachment := true;
           download_name :=
             format env (dict_get fd (u "name") (PStr (u "resume")))
             ++ u ".pdf";
           mimetype := u "application/pdf" |}, t1).
Proof.
  intros Hfd Hai Hr Hname Hw Hpdf.
  unfold download_pdf, mbind at 1 2 3 4, M_bind, lift.
  rewrite Hfd, Hai. cbv beta iota zeta. rewrite Hr, Hw. cbv beta iota.
  unfold try_except, mbind at 1 2 3, M_bind, lift. rewrite Hpdf.
  cbn [py_get]. by rewrite (send_file_ok _ _ _ _ _ Hname).
Qed.

(** The fallback path: the ReportLab document of the name, the summary and
    the skills line is sent. *)
Lemma download_pdf_fallback_path
    request t fd ai html t1 title summary skills :
  json_loads env (opt_value (form request !! u "form_data_json"))
    = Ok (PDict fd) →
  json_loads env (opt_value (form request !! u "ai_json")) = Ok (PDict ai) →
  render_resume_html env (opt_value (form request !! u "template_choice"))
    (PDict fd) (PDict ai)
    (py_or (opt_value (form request !! u "profile_image_path")) PNone) t
    = (Ok html, t1) →
  accepts_name env
    (format env (dict_get fd (u "name") (PStr (u "resume"))) ++ u ".pdf") →
  WEASY_AVAILABLE env = false ∨ (∃ e, write_pdf env html = Raise e) →
  dict_get fd (u "name") (PStr (u "")) = PStr title →
  dict_get ai (u "summary") (PStr (u "")) = PStr summary →
  dict_get ai (u "skills_line") (PStr (u "")) = PStr skills →
  (∀ p op, string_draw op → canvas_do env p op = Ok ()) →
  ∃ t2,
    download_pdf env request t
    = (Ok {| body :=
               canvas_bytes env
                 [SetFont (u "Helvetica-Bold") 18;
                  DrawString 50 750 (PStr title);
                  SetFont (u "Helvetica") 11;
                  DrawString 50 726 (PStr (take 95 summary));
                  DrawString 50 712 (PStr (take 95 skills)); Save];
             as_attachment := true;
             download_name :=
               format env (dict_get fd (u "name") (PStr (u "resume")))
               ++ u ".pdf";
             mimetype := u "application/pdf" |}, t2).
Proof.
  intros Hfd Hai Hrender Hname Hprimary Htitle Hsummary Hskills Hc.
  assert (∀ t',
    (title ← lift (py_get (PDict fd) (u "name") (PStr (u "")));
     summary ← lift (py_get (PDict ai) (u "summary") (PStr (u "")));
     skills ← lift (py_get (PDict ai) (u "skills_line") (PStr (u "")));
     let lines :=
       PDict (list_to_map [(u "title_line", title);
                           (u "lines", PList [summary; skills])]) in
     buf ← lift (reportlab_pdf_bytes env lines
                   (py_or (opt_value (form request !! u "profile_image_path"))
                      PNone));
     name ← lift (py_get (PDict fd) (u "name") (PStr (u "resume")));
     lift (send_file env buf true (format env name ++ u ".pdf")
             (u "application/pdf"))) t'
    = (Ok {| body :=
               canvas_bytes env
                 [SetFont (u "Helvetica-Bold") 18;
                  DrawString 50 750 (PStr title);
                  SetFont (u "Helvetica") 11;
                  DrawString 50 726 (PStr (take 95 summary));
                  DrawString 50 712 (PStr (take 95 skills)); Save];
             as_attachment := true;
             download_name :=
               format env (dict_get fd (u "name") (PStr (u "resume")))
               ++ u ".pdf";
             mimetype := u "application/pdf" |}, t')) as Hfallback.
  { intros t'. unfold mbind, M_bind, lift, py_get.
    rewrite Htitle, Hsummary, Hskills. cbv beta iota zeta.
    rewrite (reportlab_pdf_bytes_strings _ title [summary; skills]);
      [|done|reflexivity|reflexivity].
    by rewrite (send_file_ok _ _ _ _ _ Hname). }
  unfold download_pdf, mbind at 1 2 3 4, M_bind, lift.
  rewrite Hfd, Hai. cbv beta iota zeta. rewrite Hrender. cbv beta iota.
  destruct (WEASY_AVAILABLE env) eqn:Hw.
  - destruct Hprimary as [?|[e Hpdf]]; [done|].
    unfold try_except, mbind at 1 2 3, M_bind, lift. rewrite Hpdf.
    cbv beta iota. eexists. apply Hfallback.
  - eexists. apply Hfallback.
Qed.


End pdf_export.



(** A name of two lines is refused by [send_file]. With a working primary
    renderer the refusal falls inside the [try]: the rendered bytes are
    dropped, the failure is printed, and the fallback meets the same
    refusal. *)
Example two_line_name_breaks_pdf :
  download_pdf Sample.full_env Sample.two_line_request []
  = (Raise ValueError,
     [EvRender (u "resume_templates/pro_minimal.html")
        [(u "form", Sample.two_line); (u "ai", Sample.structure);
         (u "profile_image", PNone)];
      EvPrint (u "WeasyPrint failed:") ValueError]).
Proof. vm_compute. reflexivity. Qed.

(** ** Properties of the DOCX export *)

Section docx_export.
Context (env : Env).
Implicit Types (request : Request) (response : Response).

(** The document builder only returns when it was given two dicts and the
    capability is there. *)
Lemma generate_docx_bytes_dicts form_data ai_struct path buf :
  generate_docx_bytes env form_data ai_struct path = Ok buf →
  DOCX_AVAILABLE env = true
  ∧ ∃ fd ai, form_data = PDict fd ∧ ai_struct = PDict ai.
Proof.
  unfold generate_docx_bytes.
  destruct (DOCX_AVAILABLE env); [|discriminate]. cbv [negb]. cbv iota zeta.
  intros H. split; [done|].
  apply bind_ok_inv in H as (name & Hname & H).
  do 5 (apply bind_ok_inv in H as (? & _ & H)).
  apply bind_ok_inv in H as (summary & Hsummary & _).
  destruct form_data; try discriminate.
  destruct ai_struct; try discriminate. eauto.
Qed.

(** C5 (amended). DOCX export returns exactly when both JSON fields parse
    to JSON objects, the document, or the fallback text, can be produced,
    and [send_file] accepts the download name; what it returns is typed as
    what was produced: the DOCX bytes with the DOCX mimetype and a [.docx]
    name when the capability is present, the UTF-8 text holding name,
    title, summary and skills line with [text/plain] and a [.txt] name
    when it is absent. *)
Theorem download_docx_consistent request response :
  (download_docx env request = Ok response ↔
   ∃ fd ai,
     json_loads env (opt_value (form request !! u "form_data_json"))
       = Ok (PDict fd) ∧
     json_loads env (opt_value (form request !! u "ai_json"))
       = Ok (PDict ai) ∧
     accepts_name env (download_name response) ∧
     as_attachment response = true ∧
     if DOCX_AVAILABLE env then
       generate_docx_bytes env (PDict fd) (PDict ai)
         (py_or (opt_value (form request !! u "profile_image_path")) PNone)
         = Ok (body response) ∧
       download_name response
       = format env (dict_get fd (u "name") (PStr (u "resume"))) ++ u ".docx" ∧
       mimetype response = docx_mimetype
     else
       encode (fallback_text
                 (format env (dict_get fd (u "name") (PStr (u ""))))
                 (format env (dict_get fd (u "title") (PStr (u ""))))
                 (format env (dict_get ai (u "summary") (PStr (u ""))))
                 (format env (dict_get ai (u "skills_line") (PStr (u "")))))
         = Ok (body response) ∧
       download_name response
       = format env (dict_get fd (u "name") (PStr (u "resume"))) ++ u ".txt" ∧
       mimetype response = u "text/plain")
  ∧ docx_mimetype ≠ u "text/plain".
Proof.
  split; [|done]. unfold download_docx. split.
  - intros H.
    apply bind_ok_inv in H as (form_data & Hfd & H).
    apply bind_ok_inv in H as (ai_struct & Hai & H). cbv zeta in H.
    destruct (DOCX_AVAILABLE env) eqn:Hd.
    + apply bind_ok_inv in H as (buf & Hbuf & H).
      destruct (generate_docx_bytes_dicts _ _ _ _ Hbuf)
        as (_ & fd & ai & -> & ->).
      cbn [py_get mbind result_bind] in H.
      apply send_file_inv in H as [Hname ->].
      exists fd, ai. do 2 (split; [done|]). split; [exact Hname|].
      by repeat split.
    + apply bind_ok_inv in H as (name & Hname & H).
      destruct form_data as [| | | | |?|fd]; try discriminate.
      apply bind_ok_inv in H as (title & Htitle & H).
      apply bind_ok_inv in H as (summary & Hsummary & H).
      destruct ai_struct as [| | | | |?|ai]; try discriminate.
      apply bind_ok_inv in H as (skills & Hskills & H). cbv zeta in H.
      apply bind_ok_inv in H as (encoded & Henc & H).
      apply bind_ok_inv in H as (name' & Hname' & H).
      injection Hname as <-. injection Htitle as <-.
      injection Hsummary as <-. injection Hskills as <-.
      injection Hname' as <-. apply send_file_inv in H as [Hname ->].
      exists fd, ai. do 2 (split; [done|]). split; [exact Hname|].
      by repeat split.
  - intros (fd & ai & -> & -> & Hname & Hattach & H).
    cbn [mbind result_bind]. cbv zeta.
    destruct response as [b attach name mime]. cbn [body as_attachment
      download_name mimetype] in *. subst attach.
    destruct (DOCX_AVAILABLE env).
    + destruct H as (-> & -> & ->). cbn [py_get mbind result_bind].
      by apply send_file_ok.
    + destruct H as (Henc & -> & ->). cbn [py_get mbind result_bind].
      unfold fallback_text in Henc. rewrite Henc. cbn [mbind result_bind].
      by apply send_file_ok.
Qed.
End docx_export.

Lemma download_docx_consistent_witness :
  ∃ b, encode (u "Ada" ++ nl ++ nl ++ nl ++ u "Engineer" ++ nl ++ nl
               ++ u "Skills: Go" ++ nl) = Ok b ∧
       download_docx Sample.bare_env Sample.export_request
       = Ok {| body := b; as_attachment := true; download_name := u "Ada.txt";
               mimetype := u "text/plain" |}.
Proof.
  eexists. split; [vm_compute; reflexivity|].
  apply (proj1 (download_docx_consistent Sample.bare_env Sample.export_request _)).
  exists {[ u "name" := PStr (u "Ada") ]},
         (<[ u "summary" := PStr (u "Engineer") ]>
            {[ u "skills_line" := PStr (u "Go") ]}).
  split; [vm_compute; reflexivity|]. split; [vm_compute; reflexivity|].
  split.
  { split; [reflexivity|].
    split; apply (bool_decide_unpack _); vm_compute; exact I. }
  split; [reflexivity|].
  split; [vm_compute; reflexivity|]. split; vm_compute; reflexivity.
Defined.

(** The claim as first stated fails on the plain-text path: a name holding
    a lone surrogate, which JSON can carry, cannot be encoded, and nothing
    is returned although both fields parse to JSON objects. *)
Lemma surrogate_name_breaks_text :
  download_docx Sample.bare_env Sample.surrogate_request
  = Raise UnicodeEncodeError.
Proof. vm_compute. reflexivity. Qed.

(** A request without the JSON fields: parsing the absent field raises. *)
Example missing_fields_break_docx :
  download_docx Sample.bare_env Sample.empty_request = Raise TypeError.
Proof. vm_compute. reflexivity. Qed.

(** A name of two lines is refused by [send_file], on either path. *)
Example two_line_name_breaks_docx :
  download_docx Sample.full_env Sample.two_line_request = Raise ValueError
  ∧ download_docx Sample.bare_env Sample.two_line_request = Raise ValueError.
Proof. split; vm_compute; reflexivity. Qed.

(** ** Trimming and splitting, further facts *)

Section strip_facts.
Implicit Types (s t : str) (c : N).

Lemma lstrip_suffix s : lstrip s `suffix_of` s.
Proof.
  induction s as [|c s IH]; simpl; [done|].
  destruct (isspace c); [by apply suffix_cons_r | done].
Qed.

Lemma lstrip_head s c s' : lstrip s = c :: s' → isspace c = false.
Proof.
  induction s as [|a s IH]; simpl; [done|].
  destruct (isspace a) eqn:Ha; [done|]. by intros [= <- _].
Qed.

Lemma lstrip_fixed c s : isspace c = false → lstrip (c :: s) = c :: s.
Proof. intros Hc. simpl. by rewrite Hc. Qed.

Lemma lstrip_idemp s : lstrip (lstrip s) = lstrip s.
Proof.
  destruct (lstrip s) as [|c s'] eqn:E; [done|].
  apply lstrip_fixed. by eapply lstrip_head.
Qed.

Lemma lstrip_nil s : lstrip s = [] → Forall (λ c, isspace c = true) s.
Proof.
  induction s as [|c s IH]; simpl; [by constructor|].
  destruct (isspace c) eqn:Hc; [|done]. intros ?. constructor; auto.
Qed.

Lemma rstrip_prefix s : rstrip s `prefix_of` s.
Proof.
  unfold rstrip. destruct (lstrip_suffix (rev s)) as [k Hk].
  exists (rev k). rewrite <- rev_app_distr, <- Hk. by rewrite rev_involutive.
Qed.

Lemma rstrip_idemp s : rstrip (rstrip s) = rstrip s.
Proof. unfold rstrip. by rewrite rev_involutive, lstrip_idemp. Qed.

(** Trimming the right end keeps a first character that is not a space. *)
Lemma rstrip_head c s : isspace c = false → ∃ s', rstrip (c :: s) = c :: s'.
Proof.
  intros Hc. destruct (rstrip_prefix (c :: s)) as [k Hk].
  destruct (rstrip (c :: s)) as [|a s'] eqn:E.
  - unfold rstrip in E. apply (f_equal (@rev N)) in E.
    rewrite rev_involutive in E. simpl in E. apply lstrip_nil in E.
    rewrite Forall_app, Forall_singleton in E. destruct E as [_ E]. congruence.
  - injection Hk as -> _. eauto.
Qed.

(** [strip] is idempotent. *)
Lemma strip_idemp s : strip (strip s) = strip s.
Proof.
  unfold strip. destruct (lstrip s) as [|c s'] eqn:E; [done|].
  destruct (rstrip_head c s' (lstrip_head _ _ _ E)) as [s'' Hs].
  rewrite Hs, lstrip_fixed by (by eapply lstrip_head).
  by rewrite <- Hs, rstrip_idemp.
Qed.

(** What [strip] returns is a stretch of the string it was given. *)
Lemma strip_elem_of s c : c ∈ strip s → c ∈ s.
Proof.
  unfold strip. intros Hc.
  destruct (rstrip_prefix (lstrip s)) as [k Hk].
  destruct (lstrip_suffix s) as [k' Hk'].
  rewrite Hk', Hk. set_solver.
Qed.

Lemma strip_space_l s : strip (32%N :: s) = strip s.
Proof. done. Qed.
End strip_facts.

Section single_separator.
Context (c : N).
Implicit Types (s t cur : str).

Lemma split_from_one_sep cur s :
  split_from [c] 0 cur (c :: s) = cur :: split_from [c] 0 [] s.
Proof. simpl. by rewrite N.eqb_refl. Qed.

Lemma split_from_one_free t : ∀ cur s,
  c ∉ t → split_from [c] 0 cur (t ++ s) = split_from [c] 0 (cur ++ t) s.
Proof.
  induction t as [|a t IH]; intros cur s Ht; simpl.
  - by rewrite app_nil_r.
  - apply not_elem_of_cons in Ht as [Hca Ht].
    destruct (c =? a)%N eqn:E; [by apply N.eqb_eq in E|]. simpl.
    rewrite IH by done. by rewrite <- app_assoc.
Qed.

(** No piece of a split on one character holds that character. *)
Lemma split_from_one_pieces s : ∀ cur,
  c ∉ cur → Forall (λ p, c ∉ p) (split_from [c] 0 cur s).
Proof.
  induction s as [|a s IH]; intros cur Hcur; simpl.
  - by constructor.
  - destruct (c =? a)%N eqn:E; simpl.
    + constructor; [done|]. apply IH. apply not_elem_of_nil.
    + apply IH. apply N.eqb_neq in E.
      rewrite not_elem_of_app, not_elem_of_cons. split_and!; [done..|apply not_elem_of_nil].
Qed.
End single_separator.

(** ** Further properties of the Local Structurer *)

Section normal_forms.
Implicit Types (data : gmap str str) (toks : list str).

Lemma split_from_first c s : ∀ cur,
  split_from [c] 0 cur s
  = match split_from [c] 0 [] s with
    | p :: ps => (cur ++ p) :: ps
    | [] => []
    end.
Proof.
  induction s as [|a s IH]; intros cur; simpl.
  - by rewrite app_nil_r.
  - destruct (c =? a)%N; simpl; [by rewrite app_nil_r|].
    rewrite IH, (IH [a]). destruct (split_from [c] 0 [] s); [done|].
    by rewrite <- app_assoc.
Qed.

Lemma split_from_one_whole c t cur :
  c ∉ t → split_from [c] 0 cur t = [cur ++ t].
Proof.
  intros Ht. rewrite <- (app_nil_r t) at 1.
  by rewrite split_from_one_free.
Qed.

Lemma pieces_join_trimmed toks :
  Forall (λ t, (44%N ∉ t) ∧ strip t = t) toks →
  strip <$> pieces (join (u ", ") toks) (u ",")
  = match toks with [] => [[]] | _ => toks end.
Proof.
  change (u ",") with [44%N]. change (u ", ") with [44%N; 32%N].
  unfold pieces. induction 1 as [|t toks [Hc Ht] Htoks IH]; [reflexivity|].
  destruct toks as [|t2 toks].
  - simpl join. rewrite split_from_one_whole by done.
    by rewrite list_fmap_singleton, app_nil_l, Ht.
  - rewrite join_cons by done. rewrite split_from_one_free by done.
    cbn [app]. rewrite split_from_one_sep, fmap_cons, Ht.
    f_equal. set (J := join [44%N; 32%N] (t2 :: toks)) in *.
    change (split_from [44%N] 0 [] (32%N :: J))
      with (split_from [44%N] 0 [32%N] J).
    rewrite split_from_first. fold J in IH.
    destruct (split_from [44%N] 0 [] J) as [|p ps]; [done|].
    rewrite fmap_cons in IH |- *. by rewrite <- IH.
Qed.

Lemma skill_tokens_trimmed skills :
  Forall (λ t, (44%N ∉ t) ∧ strip t = t) (Spec.skill_tokens skills).
Proof.
  unfold Spec.skill_tokens, pieces. change (u ",") with [44%N].
  apply Forall_fmap.
  eapply Forall_impl; [apply split_from_one_pieces, not_elem_of_nil|].
  intros p Hp. simpl. split; [|apply strip_idemp].
  intros Hin. by apply Hp, strip_elem_of.
Qed.

(** X1. The skills line is a normal form: structuring a form whose skills
    are an earlier skills line gives that skills line back. *)
Theorem skills_line_idempotent data :
  ∃ r r', fallback_structure data = Ok r ∧
    fallback_structure (<[ u "skills" := skills_line r ]> data) = Ok r' ∧
    skills_line r' = skills_line r.
Proof.
  exists (Spec.structure data),
         (Spec.structure (<[ u "skills" := skills_line (Spec.structure data) ]> data)).
  split; [apply fallback_structure_eq|]. split; [apply fallback_structure_eq|].
  cbn [skills_line Spec.structure]. rewrite dict_get_insert.
  set (toks := filter (λ t, t ≠ [])
                 (Spec.skill_tokens (dict_get data (u "skills") (u "")))).
  assert (Forall (λ t, (44%N ∉ t) ∧ strip t = t) toks) as Htoks.
  { apply Forall_forall. intros t [_ Ht]%list_elem_of_filter.
    revert t Ht. apply Forall_forall, skill_tokens_trimmed. }
  f_equal.
  change (Spec.skill_tokens (join (u ", ") toks))
    with (strip <$> pieces (join (u ", ") toks) (u ",")).
  rewrite pieces_join_trimmed by done.
  destruct toks as [|t toks'] eqn:E; [done|]. rewrite <- E.
  subst toks. by apply list_filter_filter_l.
Qed.

Lemma part_trimmed i block : strip (Spec.part i block) = Spec.part i block.
Proof.
  unfold Spec.part. rewrite list_lookup_fmap.
  destruct (pieces block (u "—") !! i); [apply strip_idemp | done].
Qed.

(** X2. Nothing the Local Structurer puts in an entry's company, role or
    dates, or joins into the skills line, has white space left at either
    end: the skills line is the comma-separated pieces of the skills field,
    each trimmed, the empty ones dropped. *)
Theorem structure_fields_trimmed data :
  ∃ r, fallback_structure data = Ok r ∧
    Forall (λ e, strip (company e) = company e ∧ strip (role e) = role e
                 ∧ strip (dates e) = dates e) (experiences r) ∧
    let toks :=
      filter (λ t, t ≠ [])
        (strip <$> pieces (dict_get data (u "skills") (u "")) (u ",")) in
    skills_line r = join (u ", ") toks ∧
    Forall (λ t, strip t = t) toks.
Proof.
  exists (Spec.structure data).
  split; [apply fallback_structure_eq|]. split; [|split; [done|]].
  - cbn [experiences Spec.structure]. apply Forall_fmap, Forall_forall.
    intros block _. unfold compose. cbn [company role dates Spec.entry_of].
    by rewrite !part_trimmed.
  - apply Forall_forall. intros t [_ Ht]%list_elem_of_filter.
    revert t Ht. apply Forall_forall.
    eapply Forall_impl; [apply skill_tokens_trimmed|]. by intros t [_ ?].
Qed.

(** X3. The Local Structurer reads the title, the skills and the raw
    experience and nothing else: two forms that agree on these three keys
    get the same structure. *)
Theorem fallback_structure_reads_three_keys data data' :
  data !! u "title" = data' !! u "title" →
  data !! u "skills" = data' !! u "skills" →
  data !! u "experience_raw" = data' !! u "experience_raw" →
  fallback_structure data = fallback_structure data'.
Proof.
  intros Ht Hs He. rewrite !fallback_structure_eq.
  unfold Spec.structure, dict_get. by rewrite Ht, Hs, He.
Qed.
End normal_forms.

Lemma fallback_structure_reads_three_keys_witness :
  fallback_structure (<[ u "name" := u "Ada" ]> Sample.two_jobs)
  = fallback_structure (<[ u "email" := u "ada@example.org" ]> Sample.two_jobs).
Proof.
  apply fallback_structure_reads_three_keys; vm_compute; reflexivity.
Defined.

(** ** Further properties of the PDF export *)

Section pagination.
Implicit Types (x y : Z) (ls : list str).

Lemma line_ops_texts x ls : ∀ y,
  drawn_texts (line_ops x y ls) = (λ l, PStr (take 95 l)) <$> ls.
Proof.
  induction ls as [|l ls IH]; intros y; [done|].
  cbn [line_ops]. unfold drawn_texts in *. cbn [omap list_omap].
  rewrite fmap_cons. f_equal.
  destruct (decide (y - 14 < 80)%Z); cbn [omap list_omap]; apply IH.
Qed.

Lemma line_ops_heights x ls : ∀ y,
  (80 ≤ y ≤ 750)%Z →
  Forall (λ h, (80 ≤ h ≤ 750)%Z) (drawn_heights (line_ops x y ls)).
Proof.
  induction ls as [|l ls IH]; intros y Hy; [constructor|].
  cbn [line_ops]. unfold drawn_heights in *. cbn [omap list_omap].
  constructor; [done|].
  destruct (decide (y - 14 < 80)%Z); cbn [omap list_omap]; apply IH; lia.
Qed.

Lemma line_ops_page_breaks x ls : ∀ y,
  (80 ≤ y ≤ 750)%Z →
  Z.of_nat (page_breaks (line_ops x y ls))
  = ((Z.of_nat (length ls) + 47 - (y - 80) / 14) / 48)%Z.
Proof.
  induction ls as [|l ls IH]; intros y Hy.
  - change (Z.of_nat (page_breaks (line_ops x y []))) with 0%Z.
    change (Z.of_nat (length [])) with 0%Z.
    Z.div_mod_to_equations. lia.
  - cbn [line_ops length]. unfold page_breaks in *.
    cbn [List.filter is_show_page].
    destruct (decide (y - 14 < 80)%Z).
    + cbn [List.filter is_show_page length].
      rewrite !Nat2Z.inj_succ, IH by lia.
      change ((750 - 80) / 14)%Z with 47%Z.
      Z.div_mod_to_equations. lia.
    + rewrite IH by lia. rewrite Nat2Z.inj_succ.
      Z.div_mod_to_equations. lia.
Qed.
End pagination.

Section pdf_export_more.
Context (env : Env).
Implicit Types (request : Request) (t : list event) (ls : list str).



(** X6. The template is rendered before the primary renderer is tried and
    outside its [try]: when it cannot be rendered the export raises, and
    the ReportLab fallback, which needs no template, is never reached. *)
Theorem download_pdf_needs_template request t form_data ai_struct e t1 :
  json_loads env (opt_value (form request !! u "form_data_json"))
    = Ok form_data →
  json_loads env (opt_value (form request !! u "ai_json")) = Ok ai_struct →
  render_resume_html env (opt_value (form request !! u "template_choice"))
    form_data ai_struct
    (py_or (opt_value (form request !! u "profile_image_path")) PNone) t
    = (Raise e, t1) →
  download_pdf env request t = (Raise e, t1).
Proof.
  intros Hfd Hai Hr. unfold download_pdf, mbind at 1 2 3, M_bind, lift.
  rewrite Hfd, Hai. cbv beta iota zeta. by rewrite Hr.
Qed.

(** X7. When the primary renderer returns and [send_file] accepts the
    download name, the renderer's bytes are the export, whatever the
    structure holds: the shape of the structure only matters to the
    fallback. Nothing is printed. *)
Theorem download_pdf_primary request t fd ai_struct html t1 pdf :
  json_loads env (opt_value (form request !! u "form_data_json"))
    = Ok (PDict fd) →
  json_loads env (opt_value (form request !! u "ai_json")) = Ok ai_struct →
  render_resume_html env (opt_value (form request !! u "template_choice"))
    (PDict fd) ai_struct
    (py_or (opt_value (form request !! u "profile_image_path")) PNone) t
    = (Ok html, t1) →
  WEASY_AVAILABLE env = true →
  write_pdf env html = Ok pdf →
  accepts_name env
    (format env (dict_get fd (u "name") (PStr (u "resume"))) ++ u ".pdf") →
  download_pdf env request t
  = (Ok {| body := pdf; as_attachment := true;
           download_name :=
             format env (dict_get fd (u "name") (PStr (u "resume")))
             ++ u ".pdf";
           mimetype := u "application/pdf" |}, t1).
Proof.
  intros Hfd Hai Hr Hw Hpdf Hname.
  by apply (download_pdf_primary_path env _ _ _ ai_struct html).
Qed.
End pdf_export_more.



Lemma download_pdf_needs_template_witness :
  download_pdf (Sample.without_templates Sample.null_env) Sample.export_request []
  = (Raise TemplateNotFound,
     [EvRender (u "resume_templates/pro_minimal.html")
        [(u "form", Sample.ada); (u "ai", Sample.structure);
         (u "profile_image", PNone)]]).
Proof.
  apply (download_pdf_needs_template _ _ _ Sample.ada Sample.structure);
    vm_compute; reflexivity.
Defined.

Lemma download_pdf_primary_witness :
  download_pdf Sample.full_env Sample.number_request []
  = (Ok {| body := [Byte.x25; Byte.x50; Byte.x44; Byte.x46; Byte.x2d];
           as_attachment := true;
           download_name :=
             format Sample.full_env
               (dict_get {[ u "name" := PStr (u "Ada") ]} (u "name")
                  (PStr (u "resume"))) ++ u ".pdf";
           mimetype := u "application/pdf" |},
     [EvRender (u "resume_templates/pro_minimal.html")
        [(u "form", Sample.ada); (u "ai", Sample.number_summary);
         (u "profile_image", PNone)]]).
Proof.
  apply (download_pdf_primary _ _ _ _ Sample.number_summary
           (u "<html>resume_templates/pro_minimal.html</html>")).
  - vm_compute. reflexivity.
  - vm_compute. reflexivity.
  - vm_compute. reflexivity.
  - reflexivity.
  - reflexivity.
  - split; [reflexivity|].
    split; apply (bool_decide_unpack _); vm_compute; exact I.
Defined.

(** ** Further properties of the index handler *)

Section chat_rules.
Context {A B : Type}.

Lemma chat_bound_ret (a : A) : chat_bound (mret a) 0.
Proof. intros t. simpl. lia. Qed.

Lemma chat_bound_lift (r : result A) : chat_bound (lift r) 0.
Proof. intros t. simpl. lia. Qed.

Lemma chat_bound_emit ev : is_chat ev = false → chat_bound (emit ev) 0.
Proof.
  intros Hev t. simpl. rewrite chat_calls_app. unfold chat_calls at 2.
  simpl. rewrite Hev. simpl. lia.
Qed.

Lemma chat_bound_bind (m : M A) (f : A → M B) n1 n2 :
  chat_bound m n1 → (∀ a, chat_bound (f a) n2) →
  chat_bound (m ≫= f) (n1 + n2).
Proof.
  intros Hm Hf t. specialize (Hm t). unfold mbind, M_bind.
  destruct (m t) as [[a|e] t1]; simpl in *; [|lia].
  specialize (Hf a t1). lia.
Qed.

Lemma chat_bound_mono (m : M A) n n' : n ≤ n' → chat_bound m n → chat_bound m n'.
Proof. intros Hn Hm t. specialize (Hm t). lia. Qed.
End chat_rules.

Section index_more.
Context (env : Env).
Implicit Types (request : Request) (t : list event).

Lemma call_openai_chat_bound api_key input :
  chat_bound (call_openai_for_resume env api_key input) 1.
Proof.
  intros t. destruct (call_openai_trace env api_key input t)
    as (v & evs & -> & Hn & _). simpl. rewrite chat_calls_app. lia.
Qed.

Lemma index_ai_struct_chat_bound apikey form :
  chat_bound (index_ai_struct env apikey form) 1.
Proof.
  unfold index_ai_struct. apply (chat_bound_bind _ _ 1 0).
  - destruct (_ && _); [apply call_openai_chat_bound|].
    eapply chat_bound_mono; [|apply chat_bound_ret]. lia.
  - intros a. destruct (negb _); [apply chat_bound_lift | apply chat_bound_ret].
Qed.

Lemma render_template_chat_bound name context :
  chat_bound (render_template env name context) 0.
Proof.
  unfold render_template. apply (chat_bound_bind _ _ 0 0).
  - by apply chat_bound_emit.
  - intros _. apply chat_bound_lift.
Qed.

Lemma index_upload_chat_bound request : chat_bound (index_upload env request) 0.
Proof.
  unfold index_upload. destruct (files request !! _) as [client_name|].
  - destruct (truthy _); [|apply chat_bound_ret].
    apply (chat_bound_bind _ _ 0 0); [by apply chat_bound_emit|]. intros _.
    apply (chat_bound_bind _ _ 0 0); [apply chat_bound_lift|]. intros _.
    apply chat_bound_ret.
  - apply chat_bound_ret.
Qed.

(** X8. Handling one request calls the completion API at most once. *)
Theorem index_calls_api_at_most_once request t :
  chat_calls (index env request t).2 ≤ chat_calls t + 1.
Proof.
  revert t. change (chat_bound (index env request) 1).
  unfold index. destruct (decide _).
  - apply (chat_bound_bind _ _ 0 1); [apply index_upload_chat_bound|].
    intros [profile_image_url profile_image_path].
    apply (chat_bound_bind _ _ 1 0); [apply index_ai_struct_chat_bound|].
    intros ai_struct.
    apply (chat_bound_bind _ _ 0 0); [apply render_template_chat_bound|].
    intros resume_html. apply render_template_chat_bound.
  - eapply chat_bound_mono; [|apply render_template_chat_bound]. lia.
Qed.

Lemma emits_no_chat {A} (m : M A) (Q : A → Prop) t :
  emits m (λ ev, is_chat ev = false) Q → chat_calls (m t).2 = chat_calls t.
Proof.
  intros Hm. destruct (Hm t) as (evs & -> & Hevs & _).
  rewrite chat_calls_app. unfold chat_calls at 2.
  induction Hevs as [|ev evs Hev _ IH]; simpl; [lia|]. by rewrite Hev.
Qed.

Lemma render_template_emits_any (P : event → Prop) name context :
  P (EvRender name context) →
  emits (render_template env name context) P (λ _, True).
Proof.
  intros HP. unfold render_template.
  eapply emits_bind; [by apply emits_emit|]. intros _ _. apply emits_lift.
Qed.

Lemma index_upload_emits_any (P : event → Prop) request :
  (∀ path, P (EvSave path)) →
  emits (index_upload env request) P (λ _, True).
Proof.
  intros HP. unfold index_upload.
  destruct (files request !! _) as [client_name|]; [|by apply emits_ret].
  destruct (truthy (PStr client_name)); [|by apply emits_ret].
  eapply emits_bind; [by apply emits_emit|]. intros _ _.
  eapply emits_bind; [apply emits_lift|]. intros _ _. by apply emits_ret.
Qed.

(** X9. No completion call is made by an installation without the AI
    capability, or for a key that is empty once trimmed (a key of white
    space alone is no key): the structure is then the Local Structurer's,
    and the trace is left as it was. *)
Theorem index_without_key_calls_nothing request t :
  OPENAI_AVAILABLE env = false
  ∨ strip (dict_get (form request) (u "apikey") (u "")) = [] →
  chat_calls (index env request t).2 = chat_calls t
  ∧ ∃ r, fallback_structure (index_form request) = Ok r
         ∧ index_ai_struct env (index_field request "apikey")
             (index_form request) t
           = (Ok (structure_value r), t).
Proof.
  intros Hno.
  assert (truthy (PStr (index_field request "apikey")) && OPENAI_AVAILABLE env
          = false) as Hguard.
  { destruct Hno as [->|Hk]; [apply andb_false_r|].
    unfold index_field. by rewrite Hk. }
  assert (∀ t', index_ai_struct env (index_field request "apikey")
                  (index_form request) t'
                = (Ok (structure_value (Spec.structure (index_form request))), t'))
    as Hai.
  { intros t'. unfold index_ai_struct. rewrite Hguard.
    unfold mbind, M_bind.
    change (@mret M _ pyval PNone t') with (@Ok pyval PNone, t').
    cbv beta iota. by rewrite index_choice. }
  split.
  - apply (emits_no_chat _ (λ _, True)). unfold index.
    destruct (decide _) as [Hpost|]; [|by apply render_template_emits_any].
    eapply emits_bind; [by apply index_upload_emits_any|].
    intros [profile_image_url profile_image_path] _.
    eapply (emits_bind _ _ _ (λ _, True)).
    { intros t'. exists []. rewrite Hai, app_nil_r. by repeat split. }
    intros ai_struct _.
    eapply emits_bind; [by apply render_template_emits_any|].
    intros resume_html _. by apply render_template_emits_any.
  - exists (Spec.structure (index_form request)).
    split; [apply fallback_structure_eq | apply Hai].
Qed.
End index_more.

Lemma index_without_key_calls_nothing_witness :
  chat_calls (index Sample.full_env Sample.blank_key_request []).2 = chat_calls []
  ∧ ∃ r, fallback_structure (index_form Sample.blank_key_request) = Ok r
         ∧ index_ai_struct Sample.full_env
             (index_field Sample.blank_key_request "apikey")
             (index_form Sample.blank_key_request) []
           = (Ok (structure_value r), []).
Proof.
  apply index_without_key_calls_nothing. right. vm_compute. reflexivity.
Defined.

(** ** The collected form and the template table *)

Section form_and_templates.
Context (env : Env).
Implicit Types (request : Request).


Lemma TPL_MAP_fixed s : dict_get TPL_MAP (dict_get TPL_MAP s s) (dict_get TPL_MAP s s)
                        = dict_get TPL_MAP s s.
Proof.
  unfold dict_get at 2 3 4. destruct (TPL_MAP !! s) as [v|] eqn:E; simpl.
  - apply elem_of_list_to_map_2 in E.
    repeat (apply elem_of_cons in E as [[= -> ->]|E]; [by vm_compute|]).
    by apply elem_of_nil in E.
  - unfold dict_get. by rewrite E.
Qed.

(** X11. Resolving a template is idempotent: the file name a key stands for
    is not itself a key, so asking for a template by its file name renders
    what asking by its key renders, and an unknown name is passed on as it
    is. *)
Theorem render_resume_html_resolved s form_data ai_struct url :
  render_resume_html env (PStr (dict_get TPL_MAP s s)) form_data ai_struct url
  = render_resume_html env (PStr s) form_data ai_struct url
  ∧ (TPL_MAP !! s = None →
     render_resume_html env (PStr s) form_data ai_struct url
     = render_template env (u "resume_templates/" ++ s ++ u ".html")
         [(u "form", form_data); (u "ai", ai_struct); (u "profile_image", url)]).
Proof.
  unfold render_resume_html. split.
  - by rewrite TPL_MAP_fixed.
  - intros E. unfold dict_get. by rewrite E.
Qed.
End form_and_templates.

(** ** Further properties of the DOCX export *)

Section docx_of_local_structure.
Context (env : Env).
Hypothesis docx_accepts :
  ∀ doc op, is_picture op = false → docx_do env doc op = Ok ().

Lemma docx_call_ok doc op :
  is_picture op = false → docx_call env doc op = Ok (doc ++ [op]).
Proof using docx_accepts. intros Hop. unfold docx_call. by rewrite docx_accepts. Qed.

Lemma structure_value_summary r d :
  py_get (structure_value r) (u "summary") d = Ok (PStr (summary r)).
Proof. reflexivity. Qed.

Lemma structure_value_skills_line r d :
  py_get (structure_value r) (u "skills_line") d = Ok (PStr (skills_line r)).
Proof. reflexivity. Qed.

Lemma structure_value_experiences r d :
  py_get (structure_value r) (u "experiences") d
  = Ok (PList (entry_value <$> experiences r)).
Proof. reflexivity. Qed.

Lemma entry_value_role e d : py_get (entry_value e) (u "role") d = Ok (PStr (role e)).
Proof. reflexivity. Qed.

Lemma entry_value_company e d :
  py_get (entry_value e) (u "company") d = Ok (PStr (company e)).
Proof. reflexivity. Qed.

Lemma entry_value_bullets e d :
  py_get (entry_value e) (u "bullets") d = Ok (PList (PStr <$> bullets e)).
Proof. reflexivity. Qed.

Lemma bullets_loop style bs : ∀ doc,
  for_each (λ doc b, docx_call env doc (AddParagraph b (Some style))) doc
    (PStr <$> bs)
  = Ok (doc ++ ((λ b, AddParagraph (PStr b) (Some style)) <$> bs)).
Proof using docx_accepts.
  induction bs as [|b bs IH]; intros doc; [by rewrite app_nil_r|].
  rewrite !fmap_cons. cbn [for_each]. rewrite docx_call_ok by done.
  cbn [mbind result_bind]. rewrite IH. by rewrite <- app_assoc.
Qed.

Lemma entries_loop es : ∀ doc,
  for_each (λ doc ex,
      role ← py_get ex (u "role") (PStr (u ""));
      company ← py_get ex (u "company") (PStr (u ""));
      doc ← docx_call env doc
              (AddHeading
                 (PStr (format env role ++ u " — " ++ format env company)) 2);
      bs ← py_get ex (u "bullets") (PList []);
      bs ← py_iter env bs;
      for_each (λ doc b,
          docx_call env doc (AddParagraph b (Some (u "List Bullet"))))
        doc bs)
    doc (entry_value <$> es)
  = Ok (doc ++ concat (entry_ops <$> es)).
Proof using docx_accepts.
  induction es as [|e es IH]; intros doc; [by rewrite app_nil_r|].
  rewrite !fmap_cons. cbn [for_each].
  rewrite entry_value_role, entry_value_company. cbn [mbind result_bind format].
  rewrite docx_call_ok by done. cbn [mbind result_bind].
  rewrite entry_value_bullets. cbn [mbind result_bind py_iter].
  rewrite bullets_loop. cbn [mbind result_bind]. rewrite IH.
  cbn [concat]. unfold entry_ops at 2. by rewrite <- !app_assoc.
Qed.

(** X12. The structure the Local Structurer builds can always be exported:
    with the DOCX capability present and a library that accepts its calls
    (a picture may be refused, that is swallowed), [generate_docx_bytes]
    returns; apart from the picture, the document is the name, the title,
    the summary and skills sections, one heading "role — company" with its
    bullets for each experience in order, and the education section; it
    holds three bullets for each experience. *)
Theorem generate_docx_bytes_of_local_structure (fd : gmap str pyval)
    (data : gmap str str) profile_image_path :
  DOCX_AVAILABLE env = true →
  ∃ r doc, fallback_structure data = Ok r ∧
    generate_docx_bytes env (PDict fd) (structure_value r) profile_image_path
    = Ok (docx_bytes env doc) ∧
    List.filter (λ op, negb (is_picture op)) doc
    = [AddHeading (dict_get fd (u "name") (PStr (u ""))) 0;
       AddParagraph (dict_get fd (u "title") (PStr (u ""))) None;
       AddHeading (PStr (u "Summary")) 1;
       AddParagraph (PStr (summary r)) None;
       AddHeading (PStr (u "Skills")) 1;
       AddParagraph (PStr (skills_line r)) None;
       AddHeading (PStr (u "Experience")) 1]
      ++ concat (entry_ops <$> experiences r)
      ++ [AddHeading (PStr (u "Education")) 1;
          AddParagraph (dict_get fd (u "education") (PStr (u ""))) None] ∧
    length (List.filter is_bullet doc) = 3 * length (experiences r).
Proof using docx_accepts.
  intros Hd. exists (Spec.structure data).
  set (r := Spec.structure data).
  assert (∀ doc, ∃ pic,
    match profile_image_path with
    | PStr path =>
      if truthy profile_image_path && path_exists env path then
        match docx_call env doc (AddPicture path) with
        | Ok doc' => Ok doc'
        | Raise _ => Ok doc
        end
      else Ok doc
    | _ => Ok doc
    end = Ok (doc ++ pic)
    ∧ List.filter (λ op, negb (is_picture op)) pic = []
    ∧ List.filter is_bullet pic = []) as Hpic.
  { intros doc.
    assert (∃ pic, Ok doc = Ok (doc ++ pic)
                   ∧ List.filter (λ op, negb (is_picture op)) pic = []
                   ∧ List.filter is_bullet pic = []) as Hnone.
    { exists []. by rewrite app_nil_r. }
    destruct profile_image_path as [| | | |path| |]; try exact Hnone.
    destruct (truthy (PStr path) && path_exists env path); [|exact Hnone].
    unfold docx_call. destruct (docx_do env doc (AddPicture path)); [|exact Hnone].
    cbn [mbind result_bind]. by exists [AddPicture path]. }
  destruct (Hpic [AddHeading (dict_get fd (u "name") (PStr (u ""))) 0;
                  AddParagraph (dict_get fd (u "title") (PStr (u ""))) None])
    as (pic & Hp & Hpic1 & Hpic2).
  eexists. split; [apply fallback_structure_eq|]. split; [|split].
  - unfold generate_docx_bytes. rewrite Hd. cbn [negb py_get mbind result_bind].
    rewrite !docx_call_ok by done. cbn [mbind result_bind app].
    rewrite docx_call_ok by done. cbn [mbind result_bind app].
    rewrite Hp. cbn [mbind result_bind].
    rewrite docx_call_ok by done. cbn [mbind result_bind].
    rewrite structure_value_summary. cbn [mbind result_bind].
    rewrite docx_call_ok by done. cbn [mbind result_bind].
    rewrite docx_call_ok by done. cbn [mbind result_bind].
    rewrite structure_value_skills_line. cbn [mbind result_bind].
    rewrite docx_call_ok by done. cbn [mbind result_bind].
    rewrite docx_call_ok by done. cbn [mbind result_bind].
    rewrite structure_value_experiences. cbn [mbind result_bind py_iter].
    rewrite entries_loop. cbn [mbind result_bind].
    rewrite docx_call_ok by done. cbn [mbind result_bind].
    rewrite docx_call_ok by done. cbn [mbind result_bind].
    reflexivity.
  - assert (List.filter (λ op, negb (is_picture op))
              (concat (entry_ops <$> experiences r))
            = concat (entry_ops <$> experiences r)) as Hmid.
    { apply forallb_filter_id, forallb_forall.
      intros op [ops [[e [<- _]]%in_map_iff Hop]]%in_concat.
      destruct Hop as [<-|[b [<- _]]%in_map_iff]; done. }
    rewrite !List.filter_app, Hpic1, Hmid.
    cbn [List.filter is_picture negb app]. by rewrite <- !app_assoc.
  - rewrite !List.filter_app, !length_app, Hpic2.
    cbn [List.filter is_bullet length].
    assert (length (List.filter is_bullet (concat (entry_ops <$> experiences r)))
            = 3 * length (experiences r)) as ->; [|lia].
    subst r. cbn [experiences Spec.structure].
    generalize (Spec.kept_blocks (dict_get data (u "experience_raw") (u ""))).
    intros blocks. induction blocks as [|block blocks IH]; [done|].
    cbn [fmap list_fmap map concat length] in *.
    rewrite List.filter_app, length_app, IH.
    change (length (List.filter is_bullet (entry_ops (Spec.entry_of block))))
      with 3. lia.
Qed.
End docx_of_local_structure.

Lemma generate_docx_bytes_of_local_structure_witness :
  ∃ r doc, fallback_structure Sample.two_jobs = Ok r ∧
    generate_docx_bytes Sample.full_env Sample.ada (structure_value r) PNone
    = Ok (docx_bytes Sample.full_env doc) ∧
    length (List.filter is_bullet doc) = 3 * length (experiences r).
Proof.
  destruct (generate_docx_bytes_of_local_structure Sample.full_env
              (λ _ _ _, eq_refl) {[ u "name" := PStr (u "Ada") ]}
              Sample.two_jobs PNone eq_refl)
    as (r & doc & Hr & Hdoc & _ & Hbullets).
  by exists r, doc.
Defined.

(** ** The text fallback is UTF-8 *)

Section utf8.
Implicit Types (c : N) (s : str) (b : bytes).

Lemma byte_of_to_N n : (n < 256)%N → Byte.to_N (byte_of n) = n.
Proof.
  intros Hn. unfold byte_of. destruct (Byte.of_N n) as [x|] eqn:E.
  - by apply Byte.to_of_N.
  - apply Byte.of_N_None_iff in E. lia.
Qed.

(** The six-bit digits of a code point, named so that linear arithmetic
    can handle them. *)
Ltac utf8_digits c :=
  try replace (c / 0x40000)%N with (c / 0x40 / 0x40 / 0x40)%N
    by (rewrite !N.Div0.div_div; reflexivity);
  try replace (c / 0x1000)%N with (c / 0x40 / 0x40)%N
    by (rewrite !N.Div0.div_div; reflexivity);
  pose proof (N.div_mod c 0x40 ltac:(discriminate));
  pose proof (N.mod_lt c 0x40 ltac:(discriminate));
  pose proof (N.div_mod (c / 0x40) 0x40 ltac:(discriminate));
  pose proof (N.mod_lt (c / 0x40) 0x40 ltac:(discriminate));
  pose proof (N.div_mod (c / 0x40 / 0x40) 0x40 ltac:(discriminate));
  pose proof (N.mod_lt (c / 0x40 / 0x40) 0x40 ltac:(discriminate));
  generalize dependent ((c / 0x40 / 0x40) mod 0x40)%N;
  generalize dependent (c / 0x40 / 0x40 / 0x40)%N;
  generalize dependent ((c / 0x40) mod 0x40)%N;
  generalize dependent (c / 0x40 / 0x40)%N;
  generalize dependent (c mod 0x40)%N;
  generalize dependent (c / 0x40)%N;
  intros.

Ltac utf8_bytes :=
  repeat (rewrite byte_of_to_N; [|lia]);
  repeat match goal with
         | |- context [N.ltb ?x ?y] => destruct (N.ltb_spec x y); try lia
         end;
  f_equal; lia.

Lemma encode_char_decodes c b rest :
  (c < 0x110000)%N → encode_char c = Ok b →
  utf8_decode ((Byte.to_N <$> b) ++ rest) = c :: utf8_decode rest.
Proof.
  intros Hc. unfold encode_char.
  destruct (N.ltb_spec c 0x80).
  { intros [= <-]. cbn [fmap list_fmap app utf8_decode]. utf8_bytes. }
  destruct (N.ltb_spec c 0x800).
  { intros [= <-]. cbn [fmap list_fmap app utf8_decode].
    utf8_digits c. utf8_bytes. }
  destruct ((0xD800 <=? c) && (c <=? 0xDFFF))%N; [done|].
  destruct (N.ltb_spec c 0x10000).
  { intros [= <-]. cbn [fmap list_fmap app utf8_decode].
    utf8_digits c. utf8_bytes. }
  intros [= <-]. cbn [fmap list_fmap app utf8_decode].
  utf8_digits c. utf8_bytes.
Qed.

Lemma encode_char_ok c :
  (∃ b, encode_char c = Ok b) ↔ ¬ (0xD800 ≤ c ≤ 0xDFFF)%N.
Proof.
  unfold encode_char.
  destruct (N.ltb_spec c 0x80); [split; [lia | by eexists]|].
  destruct (N.ltb_spec c 0x800); [split; [lia | by eexists]|].
  destruct (N.leb_spec 0xD800 c), (N.leb_spec c 0xDFFF); cbn [andb].
  - split; [by intros [b ?] | lia].
  - destruct (N.ltb_spec c 0x10000); (split; [lia | by eexists]).
  - destruct (N.ltb_spec c 0x10000); (split; [lia | by eexists]).
  - destruct (N.ltb_spec c 0x10000); (split; [lia | by eexists]).
Qed.

End utf8.


(** ** Failures and what they leave behind *)

Section failures.
Context (env : Env).
Implicit Types (request : Request) (t : list event).

(** X14. A completion that holds no choice is a failure like any other:
    indexing the empty list raises, the error is printed once, and the
    answer is [None], after the one call that was made. *)
Theorem call_openai_without_choices api_key input t dumped resp :
  OPENAI_AVAILABLE env = true → api_key ≠ [] →
  json_dumps env input = Ok dumped →
  chat_completion_create env api_key (prompt_for dumped) = Ok resp →
  getitem_key resp (u "choices") = Ok (PList []) →
  call_openai_for_resume env api_key input t
  = (Ok PNone,
     t ++ [EvChat api_key (u "gpt-4o-mini") (prompt_for dumped) 700;
           EvPrint (u "OpenAI error:") IndexError]).
Proof.
  intros Ha Hk Hd Hc Hch. rewrite call_openai_cases, Ha.
  destruct (truthy (PStr api_key)) eqn:Ht; [|by apply truthy_str in Ht].
  cbn [negb orb]. unfold openai_request, mbind, M_bind, lift, emit.
  rewrite Hd. cbv beta iota. rewrite Hc. cbv beta iota. rewrite Hch.
  cbv beta iota. cbn [getitem_idx getitem lookup list_lookup].
  by rewrite <- app_assoc.
Qed.


Lemma emits_try_except {A} (P : event → Prop) (Q : A → Prop)
    (m : M A) (h : exn → M A) :
  emits m P Q → (∀ e, emits (h e) P Q) → emits (try_except m h) P Q.
Proof.
  intros Hm Hh t. destruct (Hm t) as (evs & Ht & Hevs & Hq).
  unfold try_except. destruct (m t) as [[a|e] t1]; simpl in *; subst t1.
  - exists evs. split; [done|]. split; [done|]. intros ? [= <-]. by apply Hq.
  - destruct (Hh e (t ++ evs)) as (evs' & Ht' & Hevs' & Hr).
    exists (evs ++ evs'). rewrite Ht', <- app_assoc.
    split; [done|]. split; [by apply Forall_app | done].
Qed.

(** X16. Exporting a PDF calls no completion API and saves no file: all it
    adds to the trace is the rendering of the template and, when the
    primary renderer failed, the report of that failure. *)
Theorem download_pdf_trace request t :
  ∃ evs, (download_pdf env request t).2 = t ++ evs ∧
    Forall (λ ev, match ev with
                  | EvRender _ _ | EvPrint _ _ => True
                  | _ => False
                  end) evs ∧
    chat_calls (download_pdf env request t).2 = chat_calls t.
Proof.
  set (P := λ ev, match ev with
                  | EvRender _ _ | EvPrint _ _ => True
                  | _ => False
                  end).
  assert (emits (download_pdf env request) P (λ _, True)) as Hemits.
  { unfold download_pdf.
    eapply emits_bind; [apply emits_lift|]. intros form_data _.
    eapply emits_bind; [apply emits_lift|]. intros ai_struct _. cbv zeta.
    eapply emits_bind.
    { unfold render_resume_html. by apply render_template_emits_any. }
    intros html _. eapply (emits_bind _ _ _ (λ _, True)).
    { destruct (WEASY_AVAILABLE env); [|by apply emits_ret].
      apply emits_try_except.
      - eapply emits_bind; [apply emits_lift|]. intros pdf _.
        eapply emits_bind; [apply emits_lift|]. intros name _.
        eapply emits_bind; [apply emits_lift|]. intros response _.
        by apply emits_ret.
      - intros e. eapply emits_bind; [by apply emits_emit|]. intros _ _.
        by apply emits_ret. }
    intros [response|] _; [by apply emits_ret|].
    do 3 (eapply emits_bind; [apply emits_lift|]; intros ? _). cbv zeta.
    do 2 (eapply emits_bind; [apply emits_lift|]; intros ? _).
    apply emits_lift. }
  destruct (Hemits t) as (evs & Ht & Hevs & _).
  exists evs. split; [done|]. split; [done|].
  rewrite Ht, chat_calls_app. unfold chat_calls at 2.
  clear Ht. induction Hevs as [|ev evs Hev _ IH]; simpl; [lia|].
  by destruct ev.
Qed.
End failures.

Lemma call_openai_without_choices_witness :
  call_openai_for_resume Sample.no_choice_env (u "sk-test") (form_value ∅) []
  = (Ok PNone,
     [] ++ [EvChat (u "sk-test") (u "gpt-4o-mini") (prompt_for (u "{}")) 700;
            EvPrint (u "OpenAI error:") IndexError]).
Proof.
  apply (call_openai_without_choices Sample.no_choice_env _ _ _ (u "{}")
           (PDict {[ u "choices" := PList [] ]})).
  - reflexivity.
  - vm_compute. discriminate.
  - reflexivity.
  - reflexivity.
  - vm_compute. reflexivity.
Defined.

